(** * candy_lfs.config: the settings store and the credential router

    A shallow embedding of [src/candy_lfs/config.py].

    - Python [str] values are Rocq [string]s; a character is read as a code
      point below 256.
    - [self._config] is a record with one optional field per key the module
      reads or writes (a missing key is [None]); the values have the types
      the annotations of the module give them.
    - The file system holds at most the configuration file; [subprocess.run]
      is an oracle that answers each invocation from the history of the
      invocations before it, and every invocation is logged.
    - Code that can raise runs in a state-and-exception monad; state changes
      made before an exception is raised are kept, as in Python. *)

From Stdlib Require Import ZArith String Ascii List Lia Bool.
From stdpp Require Import base gmap strings list.

Open Scope Z_scope.

(** ** Exceptions and results *)

(** The exceptions the module can meet.  [KeyboardInterrupt] derives from
    [BaseException] only; the others derive from [Exception]. *)
Inductive exn :=
| ValueError
| OSError
| TimeoutExpired
| UnicodeDecodeError
| YAMLError
| IndexError
| KeyboardInterrupt.

Definition is_Exception (e : exn) : bool :=
  match e with
  | KeyboardInterrupt => false
  | _ => true
  end.

Inductive result (A : Type) :=
| Ok (a : A)
| Raise (e : exn).
Arguments Ok {A} a.
Arguments Raise {A} e.

(** ** Python string built-ins used by the module *)

Module Py.

(** [len(s)] *)
Definition len (s : string) : Z := Z.of_nat (String.length s).

(** A non-empty [str] is truthy. *)
Definition truthy (s : string) : bool :=
  match s with
  | EmptyString => false
  | String _ _ => true
  end.

(** [a or b] on strings *)
Definition or_ (a b : string) : string := if truthy a then a else b.

Fixpoint drop (n : nat) (s : string) : string :=
  match n, s with
  | O, _ => s
  | S n', String _ s' => drop n' s'
  | S _, EmptyString => EmptyString
  end.

Fixpoint take (n : nat) (s : string) : string :=
  match n, s with
  | O, _ => EmptyString
  | S n', String c s' => String c (take n' s')
  | S _, EmptyString => EmptyString
  end.

(** [s[i:j]], [s[:j]] and [s[i:]] for indices that are not negative *)
Definition slice (s : string) (i j : Z) : string :=
  take (Z.to_nat (j - i)) (drop (Z.to_nat i) s).
Definition slice_to (s : string) (j : Z) : string := take (Z.to_nat j) s.
Definition slice_from (s : string) (i : Z) : string := drop (Z.to_nat i) s.

(** Index of the first [c] in [s], counted from [i]; [-1] when there is none. *)
Fixpoint find_at (c : ascii) (s : string) (i : Z) : Z :=
  match s with
  | EmptyString => -1
  | String a s' => if Ascii.eqb a c then i else find_at c s' (i + 1)
  end.

(** [s.find(c)] and [s.find(c, start)] for a one-character [c] *)
Definition find (c : ascii) (s : string) : Z := find_at c s 0.
Definition find_from (c : ascii) (s : string) (start : Z) : Z :=
  find_at c (slice_from s start) start.

(** [c in s] *)
Fixpoint contains (c : ascii) (s : string) : bool :=
  match s with
  | EmptyString => false
  | String a s' => Ascii.eqb a c || contains c s'
  end.

(** [all(p(c) for c in s)] *)
Fixpoint forallb (p : ascii -> bool) (s : string) : bool :=
  match s with
  | EmptyString => true
  | String a s' => p a && forallb p s'
  end.

(** [s.replace(c, '')] *)
Fixpoint remove (c : ascii) (s : string) : string :=
  match s with
  | EmptyString => EmptyString
  | String a s' => if Ascii.eqb a c then remove c s' else String a (remove c s')
  end.

(** [s.lstrip(chars)] and [s.rstrip(chars)], the character set as a predicate *)
Fixpoint lstrip (p : ascii -> bool) (s : string) : string :=
  match s with
  | EmptyString => EmptyString
  | String a s' => if p a then lstrip p s' else s
  end.

Fixpoint rstrip (p : ascii -> bool) (s : string) : string :=
  match s with
  | EmptyString => EmptyString
  | String a s' =>
      match rstrip p s' with
      | EmptyString => if p a then EmptyString else String a EmptyString
      | r => String a r
      end
  end.

(** [c.isspace()] for a code point below 256 *)
Definition isspace (c : ascii) : bool :=
  let n := nat_of_ascii c in
  (((9 <=? n) && (n <=? 13)) || ((28 <=? n) && (n <=? 32))
   || (n =? 133) || (n =? 160))%nat.

(** [s.strip()] *)
Definition strip (s : string) : string := rstrip isspace (lstrip isspace s).

(** [s.split(sep)] for a one-character [sep] *)
Fixpoint split (sep : ascii) (s : string) : list string :=
  match s with
  | EmptyString => [EmptyString]
  | String a s' =>
      if Ascii.eqb a sep then EmptyString :: split sep s'
      else match split sep s' with
           | w :: ws => String a w :: ws
           | [] => [String a EmptyString]
           end
  end.

(** [s.split(sep, 1)] for a one-character [sep] *)
Fixpoint split1 (sep : ascii) (s : string) : list string :=
  match s with
  | EmptyString => [EmptyString]
  | String a s' =>
      if Ascii.eqb a sep then [EmptyString; s']
      else match split1 sep s' with
           | w :: ws => String a w :: ws
           | [] => [String a EmptyString]
           end
  end.

(** The line feed, as a character and as a string *)
Definition lf : ascii := "010"%char.
Definition LF : string := String lf EmptyString.

(** [s.startswith(p)] *)
Definition startswith (s p : string) : bool := String.prefix p s.

(** [c.isascii() and c.isalpha()] *)
Definition is_ascii_alpha (c : ascii) : bool :=
  let n := nat_of_ascii c in
  (((65 <=? n) && (n <=? 90)) || ((97 <=? n) && (n <=? 122)))%nat.

End Py.

(** ** [urllib.parse]: the authority of a URL

    [urlparse(url).netloc] as CPython's [urlsplit] computes it.  [urlsplit]
    raises [ValueError] on an authority with a square bracket that has no
    partner, or with a bracketed host it refuses.  The check of a bracketed
    host literal ([_check_bracketed_netloc]: a regular expression and
    [ipaddress]) is a parameter; [_checknetloc] cannot fail on code points
    below 256 and is left out. *)

Module urllib.

Definition scheme_chars : string :=
  "abcdefghijklmnopqrstuvwxyzABCDEFGHIJKLMNOPQRSTUVWXYZ0123456789+-.".

Definition _WHATWG_C0_CONTROL_OR_SPACE (c : ascii) : bool :=
  (nat_of_ascii c <=? 32)%nat.

Definition _UNSAFE_URL_BYTES_TO_REMOVE : list ascii :=
  ["009"; "013"; "010"]%char.

(** The part of [url] after its scheme, or [url] when it has none. *)
Definition after_scheme (url : string) : string :=
  let i := Py.find ":" url in
  if (0 <? i) && match url with
                 | String c _ => Py.is_ascii_alpha c
                 | EmptyString => false
                 end
  then
    if Py.forallb (fun c => Py.contains c scheme_chars) (Py.slice_to url i)
    then Py.slice_from url (i + 1)
    else url
  else url.

Definition _splitnetloc (url : string) (start : Z) : string * string :=
  let delim :=
    fold_left
      (fun delim c =>
         let wdelim := Py.find_from c url start in
         if 0 <=? wdelim then Z.min delim wdelim else delim)
      ["/"; "?"; "#"]%char (Py.len url) in
  (Py.slice url start delim, Py.slice_from url delim).

Section Netloc.
(** [true] when [_check_bracketed_netloc] accepts the authority *)
Variable bracketed_netloc_ok : string -> bool.

Definition urlparse_netloc (url : string) : result string :=
  let url := Py.lstrip _WHATWG_C0_CONTROL_OR_SPACE url in
  let url := fold_left (fun u b => Py.remove b u) _UNSAFE_URL_BYTES_TO_REMOVE url in
  let url := after_scheme url in
  if Py.startswith url "//" then
    let netloc := fst (_splitnetloc url 2) in
    let lb := Py.contains "[" netloc in
    let rb := Py.contains "]" netloc in
    if (lb && negb rb) || (rb && negb lb) then Raise ValueError
    else if lb && rb && negb (bracketed_netloc_ok netloc) then Raise ValueError
    else Ok netloc
  else Ok EmptyString.
End Netloc.

End urllib.

(** ** The settings document

    [self._config], with a field per key; [None] is a key that is missing.
    [current_tenant] may also be present with the value [None]. *)

Record tenant := Tenant {
  t_tenant_id : string;   (* tenant["tenant_id"] *)
  t_name : string;        (* tenant["name"] *)
}.

Record settings := Settings {
  cfg_api_endpoint : option string;
  cfg_lfs_endpoint : option string;
  cfg_current_tenant : option (option string);
  cfg_tenants : option (list tenant);
  cfg_tenant_repos : option (gmap string (list string));
}.

(** The empty dict, [{}]. *)
Definition empty_settings : settings := Settings None None None None None.

Definition has_key {A} (o : option A) : bool :=
  match o with
  | Some _ => true
  | None => false
  end.

(** A dict is truthy when it has a key. *)
Definition dict_truthy (c : settings) : bool :=
  has_key (cfg_api_endpoint c) || has_key (cfg_lfs_endpoint c)
  || has_key (cfg_current_tenant c) || has_key (cfg_tenants c)
  || has_key (cfg_tenant_repos c).

Definition set_api_endpoint (v : string) (c : settings) : settings :=
  Settings (Some v) (cfg_lfs_endpoint c) (cfg_current_tenant c) (cfg_tenants c)
           (cfg_tenant_repos c).
Definition set_lfs_endpoint (v : string) (c : settings) : settings :=
  Settings (cfg_api_endpoint c) (Some v) (cfg_current_tenant c) (cfg_tenants c)
           (cfg_tenant_repos c).
Definition set_current_tenant (v : option string) (c : settings) : settings :=
  Settings (cfg_api_endpoint c) (cfg_lfs_endpoint c) (Some v) (cfg_tenants c)
           (cfg_tenant_repos c).
Definition set_tenants (v : list tenant) (c : settings) : settings :=
  Settings (cfg_api_endpoint c) (cfg_lfs_endpoint c) (cfg_current_tenant c) (Some v)
           (cfg_tenant_repos c).
Definition set_tenant_repos_key (v : gmap string (list string)) (c : settings) : settings :=
  Settings (cfg_api_endpoint c) (cfg_lfs_endpoint c) (cfg_current_tenant c) (cfg_tenants c)
           (Some v).

(** ** The world outside: the configuration file and child processes *)

(** One call of [subprocess.run(args, input=..., capture_output=True,
    text=True, timeout=...)]. *)
Record invocation := Invocation {
  args : list string;
  input : option string;
  timeout : Z;
}.

Record CompletedProcess := Completed {
  returncode : Z;
  stdout : string;
}.

(** What a call does: the child ends, or [subprocess.run] raises (the program
    cannot be started, the time runs out, the output cannot be decoded). *)
Inductive outcome :=
| Completes (p : CompletedProcess)
| Fails (e : exn).

Record state := State {
  _config : settings;             (* self._config *)
  config_file : option string;    (* the text of CONFIG_FILE; None: no such file *)
  calls : list invocation;        (* the child processes run so far, oldest first *)
}.

(** ** The monad of the methods *)

Definition M (A : Type) : Type := state -> result A * state.

#[export] Instance M_ret : MRet M := fun A a s => (Ok a, s).
#[export] Instance M_bind : MBind M := fun A B f m s =>
  match m s with
  | (Ok a, s') => f a s'
  | (Raise e, s') => (Raise e, s')
  end.

Definition raise {A} (e : exn) : M A := fun s => (Raise e, s).
Definition gets {A} (f : settings -> A) : M A := fun s => (Ok (f (_config s)), s).
Definition modify (f : settings -> settings) : M unit := fun s =>
  (Ok tt, State (f (_config s)) (config_file s) (calls s)).

(** [try: body / except Exception: handler] *)
Definition try_except {A} (body handler : M A) : M A := fun s =>
  match body s with
  | (Ok a, s') => (Ok a, s')
  | (Raise e, s') => if is_Exception e then handler s' else (Raise e, s')
  end.

(** [for x in l: body(x)] *)
Fixpoint for_each {A} (l : list A) (body : A -> M unit) : M unit :=
  match l with
  | [] => mret tt
  | x :: l' => body x ≫= fun _ => for_each l' body
  end.

(** What the module takes from outside: the environment variables, PyYAML,
    [urllib]'s check of a bracketed host, and the operating system. *)
Class World := {
  (** [os.environ] when the module is imported *)
  environ : string -> option string;
  (** [yaml.dump] of a settings document *)
  yaml_dump : settings -> string;
  (** [yaml.safe_load] of a text: a fault, the null document, or a mapping *)
  yaml_safe_load : string -> result (option settings);
  (** [true] when [_check_bracketed_netloc] accepts the authority *)
  bracketed_netloc_ok : string -> bool;
  (** what a child process does, given the ones run before it *)
  process : list invocation -> invocation -> outcome;
}.

(** ** The class [Config] *)

Section Config.
Context {W : World}.

(** [os.getenv(key, default)] *)
Definition getenv (key default : string) : string :=
  match environ key with
  | Some v => v
  | None => default
  end.

Definition __BUILD_API_ENDPOINT__ : string := EmptyString.
Definition __BUILD_LFS_ENDPOINT__ : string := EmptyString.

Definition DEFAULT_API_ENDPOINT : string :=
  Py.or_ __BUILD_API_ENDPOINT__ (getenv "CANDY_LFS_API_ENDPOINT" EmptyString).
Definition DEFAULT_LFS_ENDPOINT : string :=
  Py.or_ __BUILD_LFS_ENDPOINT__ (getenv "CANDY_LFS_LFS_ENDPOINT" EmptyString).

(** [subprocess.run]: the call is logged, then the child ends or the call raises. *)
Definition subprocess_run (a : list string) (i : option string) (t : Z)
  : M CompletedProcess := fun s =>
  let call := Invocation a i t in
  let s' := State (_config s) (config_file s) (calls s ++ [call]) in
  match process (calls s) call with
  | Completes p => (Ok p, s')
  | Fails e => (Raise e, s')
  end.

Definition _load_config : M unit := fun s =>
  match config_file s with
  | Some text =>
      match yaml_safe_load text with
      | Ok doc =>
          let loaded :=
            match doc with
            | Some d => if dict_truthy d then d else empty_settings
            | None => empty_settings
            end in
          (Ok tt, State loaded (config_file s) (calls s))
      | Raise e => (Raise e, s)
      end
  | None =>
      (Ok tt,
       State (Settings (Some DEFAULT_API_ENDPOINT) None (Some None) None None)
             (config_file s) (calls s))
  end.

Definition _save_config : M unit := fun s =>
  (Ok tt, State (_config s) (Some (yaml_dump (_config s))) (calls s)).

(** [Config()]: the constructor, on a given file system and call log *)
Definition __init__ (file : option string) (log : list invocation) : result unit * state :=
  _load_config (State empty_settings file log).

Definition api_endpoint (c : settings) : string :=
  default EmptyString (cfg_api_endpoint c).

Definition api_endpoint_setter (value : string) : M unit :=
  modify (set_api_endpoint value) ≫= fun _ => _save_config.

Definition lfs_endpoint (c : settings) : string :=
  default DEFAULT_LFS_ENDPOINT (cfg_lfs_endpoint c).

Definition lfs_endpoint_setter (value : string) : M unit :=
  modify (set_lfs_endpoint value) ≫= fun _ => _save_config.

Definition current_tenant (c : settings) : option string :=
  default None (cfg_current_tenant c).

Definition current_tenant_setter (value : option string) : M unit :=
  modify (set_current_tenant value) ≫= fun _ => _save_config.

(** [if repo_name:] on an [Optional[str]]: [None] and the empty string are falsy. *)
Definition repo_truthy (repo_name : option string) : bool :=
  match repo_name with
  | Some r => Py.truthy r
  | None => false
  end.

(** [f"{tenant_id}/{repo_name}"] *)
Definition fmt_path (tenant_id : string) (repo_name : option string) : string :=
  tenant_id +:+ "/" +:+ default "None" repo_name.

Definition _get_git_credential_info (c : settings) (tenant_id : string)
    (repo_name : option string) : result (string * string) :=
  if Py.truthy (lfs_endpoint c) then
    match urllib.urlparse_netloc bracketed_netloc_ok (lfs_endpoint c) with
    | Ok netloc =>
        let path := if repo_truthy repo_name then fmt_path tenant_id repo_name
                    else tenant_id in
        Ok (netloc, path)
    | Raise e => Raise e
    end
  else if repo_truthy repo_name then Ok ("candy-lfs.local", fmt_path tenant_id repo_name)
  else Ok ("candy-lfs.local", tenant_id).

(** The record sent to [git credential]: [key=value] lines, then a blank line. *)
Definition credential_input (host path username : string) (password : option string)
  : string :=
  "protocol=https" +:+ Py.LF +:+ "host=" +:+ host +:+ Py.LF +:+ "path=" +:+ path +:+ Py.LF
  +:+ "username=" +:+ username +:+ Py.LF
  +:+ match password with
      | Some p => "password=" +:+ p +:+ Py.LF
      | None => EmptyString
      end
  +:+ Py.LF.

(** The value is what the [try] block returns, and [None] when it falls
    through or an [Exception] is caught. *)
Definition _git_credential_get (host path username : string) : M (option string) :=
  try_except
    (result ← subprocess_run ["git"; "credential"; "fill"]
                             (Some (credential_input host path username None)) 5;
     if returncode result =? 0 then
       match List.find (fun line => Py.startswith line "password=")
                       (Py.split Py.lf (stdout result)) with
       | Some line =>
           match Py.split1 "=" line with
           | _ :: v :: _ => mret (Some v)
           | _ => raise IndexError
           end
       | None => mret None
       end
     else mret None)
    (mret None).

Definition _git_credential_store (host path username password : string) : M unit :=
  try_except
    (_ ← subprocess_run ["git"; "credential"; "approve"]
                        (Some (credential_input host path username (Some password))) 5;
     mret tt)
    (mret tt).

Definition _git_credential_erase (host path username : string) : M unit :=
  try_except
    (_ ← subprocess_run ["git"; "credential"; "reject"]
                        (Some (credential_input host path username None)) 5;
     mret tt)
    (mret tt).

Definition use_http_path_key (host : string) : string :=
  "credential.https://" +:+ host +:+ ".useHttpPath".

Definition _ensure_use_http_path (host : string) : M unit :=
  let config_key := use_http_path_key host in
  try_except
    (result ← subprocess_run ["git"; "config"; "--global"; "--get"; config_key] None 5;
     if negb (returncode result =? 0) || negb (String.eqb (Py.strip (stdout result)) "true")
     then _ ← subprocess_run ["git"; "config"; "--global"; config_key; "true"] None 5;
          mret tt
     else mret tt)
    (mret tt).

Definition get_github_token (tenant_id : string) (repo_name : option string)
  : M (option string) :=
  '(host, path) ← (fun s => (_get_git_credential_info (_config s) tenant_id repo_name, s));
  _git_credential_get host path tenant_id.

Definition set_github_token (tenant_id token : string) (repo_name : option string)
  : M unit :=
  '(host, path) ← (fun s => (_get_git_credential_info (_config s) tenant_id repo_name, s));
  _ ← _ensure_use_http_path host;
  _git_credential_store host path tenant_id token.

Definition delete_github_token (tenant_id : string) (repo_name : option string)
  : M unit :=
  '(host, path) ← (fun s => (_get_git_credential_info (_config s) tenant_id repo_name, s));
  _git_credential_erase host path tenant_id.

Definition get_tenant_repos (c : settings) (tenant_id : string) : list string :=
  let tenant_repos := default ∅ (cfg_tenant_repos c) in
  default [] (tenant_repos !! tenant_id).

Definition set_tenant_repos (tenant_id : string) (repo_names : list string) : M unit :=
  _ ← modify (fun c => if has_key (cfg_tenant_repos c) then c
                       else set_tenant_repos_key ∅ c);
  _ ← modify (fun c => match cfg_tenant_repos c with
                       | Some m => set_tenant_repos_key (<[tenant_id := repo_names]> m) c
                       | None => c
                       end);
  _save_config.

Definition _clear_tenant_repos (tenant_id : string) : M unit :=
  tenant_repos ← gets (fun c => default ∅ (cfg_tenant_repos c));
  match tenant_repos !! tenant_id with
  | Some _ =>
      _ ← modify (set_tenant_repos_key (delete tenant_id tenant_repos));
      _save_config
  | None => mret tt
  end.

Definition delete_all_tenant_credentials (tenant_id : string) : M unit :=
  repo_names ← gets (fun c => get_tenant_repos c tenant_id);
  _ ← for_each repo_names (fun repo_name => delete_github_token tenant_id (Some repo_name));
  _clear_tenant_repos tenant_id.

Definition get_tenant_list (c : settings) : list tenant :=
  default [] (cfg_tenants c).

(** The loop of [add_tenant]: the list with the first matching entry renamed,
    or [None] when the loop ends without [break]. *)
Fixpoint rename_first (tenant_id name : string) (tenants : list tenant)
  : option (list tenant) :=
  match tenants with
  | [] => None
  | tenant :: rest =>
      if String.eqb (t_tenant_id tenant) tenant_id
      then Some (Tenant (t_tenant_id tenant) name :: rest)
      else match rename_first tenant_id name rest with
           | Some rest' => Some (tenant :: rest')
           | None => None
           end
  end.

Definition add_tenant (tenant_id name : string) : M unit :=
  tenants ← gets (fun c => default [] (cfg_tenants c));
  let tenants :=
    match rename_first tenant_id name tenants with
    | Some renamed => renamed
    | None => tenants ++ [Tenant tenant_id name]
    end in
  _ ← modify (set_tenants tenants);
  _save_config.

Definition remove_tenant (tenant_id : string) : M unit :=
  tenants ← gets (fun c => default [] (cfg_tenants c));
  _ ← modify (set_tenants
                (List.filter (fun t => negb (String.eqb (t_tenant_id t) tenant_id)) tenants));
  _ ← _save_config;
  delete_github_token tenant_id None.

End Config.

(** ** Sample worlds *)

(** No environment variable is set, PyYAML writes and reads the empty
    mapping, every bracketed host is accepted, and [git] answers as [p] says. *)
Definition world_with (p : list invocation -> invocation -> outcome) : World :=
  {| environ := fun _ => None;
     yaml_dump := fun _ => "{}";
     yaml_safe_load := fun _ => Ok (Some empty_settings);
     bracketed_netloc_ok := fun _ => true;
     process := p |}.

(** [git] is not installed. *)
Definition no_git : World := world_with (fun _ _ => Fails OSError).

(** [git] does not answer in time. *)
Definition slow_git : World := world_with (fun _ _ => Fails TimeoutExpired).

(** [git] ends with status 0 and prints nothing. *)
Definition quiet_git : World := world_with (fun _ _ => Completes (Completed 0 EmptyString)).

(** [git] ends with status 0 and prints a credential. *)
Definition filling_git : World :=
  world_with (fun _ _ => Completes (Completed 0 ("username=t1" +:+ Py.LF +:+ "password=s3cret=" +:+ Py.LF))).

(** A helper that reports [useHttpPath] as already set. *)
Definition scoped_git : World :=
  world_with (fun _ _ => Completes (Completed 0 ("true" +:+ Py.LF))).

Definition fresh_state (c : settings) : state := State c None [].

(** A document with an endpoint that names a port. *)
Definition port_settings : settings :=
  Settings None (Some "https://lfs.example.com:8443/api") None None None.

(** A document with the endpoint of the specification's example. *)
Definition example_settings : settings :=
  Settings None (Some "https://lfs.example.com/api") None None None.

(** A document whose endpoint has a bracket that is not closed. *)
Definition malformed_settings : settings :=
  Settings None (Some "https://[::1/api") None None None.

(** The same endpoint, and a repository for the tenant [t1]. *)
Definition malformed_repos_settings : settings :=
  Settings None (Some "https://[::1/api") None None (Some {["t1" := ["r1"]]}).

(** A tenant list with two entries for one tenant. *)
Definition twin_tenants : list tenant :=
  [Tenant "t1" "a"; Tenant "t1" "b"].

(** A document whose endpoint is set to the empty string. *)
Definition blank_endpoint_settings : settings :=
  Settings None (Some EmptyString) None None None.

(** A document with repository names for the tenant [t1]. *)
Definition repos_settings (names : list string) : settings :=
  Settings None None None None (Some {["t1" := names]}).

(** A document with a tenant list. *)
Definition tenants_settings (l : list tenant) : settings :=
  Settings None None None (Some l) None.

Definition three_tenants : list tenant :=
  [Tenant "t0" "zero"; Tenant "t1" "old"; Tenant "t2" "two"].

(** The environment names a default LFS endpoint. *)
Definition env_world : World :=
  {| environ := fun key => if String.eqb key "CANDY_LFS_LFS_ENDPOINT"
                           then Some "https://env.example.com" else None;
     yaml_dump := fun _ => "{}";
     yaml_safe_load := fun _ => Ok (Some empty_settings);
     bracketed_netloc_ok := fun _ => true;
     process := fun _ _ => Completes (Completed 0 EmptyString) |}.

(** PyYAML reads back the document [d]; [git] ends with status 0. *)
Definition yaml_world (d : settings) : World :=
  {| environ := fun _ => None;
     yaml_dump := fun _ => "lfs_endpoint: https://lfs.example.com:8443/api";
     yaml_safe_load := fun _ => Ok (Some d);
     bracketed_netloc_ok := fun _ => true;
     process := fun _ _ => Completes (Completed 0 EmptyString) |}.

(** ** The calls the methods issue, and the words of the statements *)

Definition fill_call (host path username : string) : invocation :=
  Invocation ["git"; "credential"; "fill"]
             (Some (credential_input host path username None)) 5.

Definition approve_call (host path username password : string) : invocation :=
  Invocation ["git"; "credential"; "approve"]
             (Some (credential_input host path username (Some password))) 5.

Definition reject_call (host path username : string) : invocation :=
  Invocation ["git"; "credential"; "reject"]
             (Some (credential_input host path username None)) 5.

Definition config_get_call (host : string) : invocation :=
  Invocation ["git"; "config"; "--global"; "--get"; use_http_path_key host] None 5.

Definition config_set_call (host : string) : invocation :=
  Invocation ["git"; "config"; "--global"; use_http_path_key host; "true"] None 5.



(** A child process that fails makes [subprocess.run] raise an [OSError], a
    [TimeoutExpired] or a [UnicodeDecodeError], which all derive from
    [Exception]. *)
Definition raises_only_Exception (p : list invocation -> invocation -> outcome) : Prop :=
  forall history call e, p history call = Fails e -> is_Exception e = true.

(** The path of an identity: [tenant_id] alone when there is no repository
    name or an empty one, and [tenant_id/repo_name] otherwise. *)
Definition identity_path (tenant_id : string) (repo_name : option string) : string :=
  match repo_name with
  | Some (String c r) => tenant_id +:+ "/" +:+ String c r
  | Some EmptyString => tenant_id
  | None => tenant_id
  end.

(** The output of [git credential fill] has a line that starts with [password=]. *)
Definition has_password_line (out : string) : bool :=
  existsb (fun line => Py.startswith line "password=") (Py.split Py.lf out).

(** The helper did not hand over a credential: the call raised, the child
    ended with a status that is not zero, or its output has no password. *)
Definition fill_failed (o : outcome) : Prop :=
  match o with
  | Fails e => is_Exception e = true
  | Completes p => returncode p <> 0 \/ has_password_line (stdout p) = false
  end.

(** The settings and the configuration file are the same in both states. *)
Definition same_settings (s s' : state) : Prop :=
  _config s' = _config s /\ config_file s' = config_file s.

(** The entries of a tenant list for one tenant. *)
Definition entries_of (tenant_id : string) (tenants : list tenant) : list tenant :=
  List.filter (fun t => String.eqb (t_tenant_id t) tenant_id) tenants.

(** The document on disk is the document in memory. *)
Definition persisted {W : World} (s : state) : Prop :=
  config_file s = Some (yaml_dump (_config s)).

(** No two entries of a tenant list have the same tenant id. *)
Definition unique_ids (tenants : list tenant) : Prop :=
  NoDup (map t_tenant_id tenants).

(** The entries of the other tenants, in their order. *)
Definition entries_of_others (tenant_id : string) (tenants : list tenant) : list tenant :=
  List.filter (fun t => negb (String.eqb (t_tenant_id t) tenant_id)) tenants.

(** A string without a line feed. *)
Definition one_line (s : string) : bool := negb (Py.contains Py.lf s).

(** The repository a name stands for: none, for no name and for the empty name. *)
Definition effective_repo (repo_name : option string) : option string :=
  match repo_name with
  | Some (String c r) => Some (String c r)
  | Some EmptyString => None
  | None => None
  end.

(** A world with an environment that names both endpoints, and a PyYAML that
    reads the null document. *)
Definition null_yaml_world : World :=
  {| environ := fun key => if String.eqb key "CANDY_LFS_API_ENDPOINT"
                           then Some "https://api.example.com"
                           else if String.eqb key "CANDY_LFS_LFS_ENDPOINT"
                                then Some "https://env.example.com" else None;
     yaml_dump := fun _ => "{}";
     yaml_safe_load := fun _ => Ok None;
     bracketed_netloc_ok := fun _ => true;
     process := fun _ _ => Completes (Completed 0 EmptyString) |}.

(** A world whose PyYAML finds a fault in every file. *)
Definition broken_yaml_world : World :=
  {| environ := fun _ => None;
     yaml_dump := fun _ => "{}";
     yaml_safe_load := fun _ => Raise YAMLError;
     bracketed_netloc_ok := fun _ => true;
     process := fun _ _ => Completes (Completed 0 EmptyString) |}.

(** [git] prints two lines before the password, and one after it. *)
Definition chatty_git : World :=
  world_with (fun _ _ =>
    Completes (Completed 0 ("protocol=https" +:+ Py.LF +:+ "username=t1" +:+ Py.LF
                            +:+ "password=a=b=c" +:+ Py.LF +:+ "password=other" +:+ Py.LF))).

(** The user interrupts every call of [git]. *)
Definition interrupted_git : World := world_with (fun _ _ => Fails KeyboardInterrupt).

(** A state whose file holds what the sample worlds write. *)
Definition saved_state (c : settings) : state := State c (Some "{}") [].

(** ** Shapes of URLs, for the statements about [urlparse] *)

(** A scheme: an ASCII letter first, and only letters, digits, [+], [-], [.]. *)
Definition is_scheme (s : string) : bool :=
  match s with
  | String c _ => Py.is_ascii_alpha c
  | EmptyString => false
  end && Py.forallb (fun c => Py.contains c urllib.scheme_chars) s.

(** The characters that end an authority, and those [urlsplit] removes. *)
Definition is_delimiter (c : ascii) : bool := Py.contains c "/?#".
Definition is_unsafe (c : ascii) : bool :=
  existsb (Ascii.eqb c) urllib._UNSAFE_URL_BYTES_TO_REMOVE.

(** An authority as written in a URL: userinfo, host and port, with no
    delimiter and no removed character in it. *)
Definition is_authority (a : string) : bool :=
  Py.forallb (fun c => negb (is_delimiter c || is_unsafe c)) a.

(** The authority has no bracket, or has both and the host check accepts it. *)
Definition brackets_accepted (ok : string -> bool) (a : string) : bool :=
  let lb := Py.contains "[" a in
  let rb := Py.contains "]" a in
  (negb lb && negb rb) || (lb && rb && ok a).

(** What follows the authority: nothing, or a path, a query or a fragment. *)
Definition is_tail (r : string) : bool :=
  match r with
  | EmptyString => true
  | String c _ => is_delimiter c
  end.

(** The three removals of [urlsplit], one after the other. *)
Definition remove_unsafe (s : string) : string :=
  fold_left (fun u b => Py.remove b u) urllib._UNSAFE_URL_BYTES_TO_REMOVE s.

(** ** Facts about strings *)

Lemma app_nil_str (b : string) : EmptyString +:+ b = b.
Proof. reflexivity. Qed.

Lemma app_cons_str (x : ascii) (a b : string) : String x a +:+ b = String x (a +:+ b).
Proof. reflexivity. Qed.

Lemma app_assoc_str (a b c : string) : (a +:+ b) +:+ c = a +:+ (b +:+ c).
Proof.
  induction a as [|x a IH]; [reflexivity |].
  now rewrite !app_cons_str, IH.
Qed.

Lemma app_empty_r (a : string) : a +:+ EmptyString = a.
Proof.
  induction a as [|x a IH]; [reflexivity |].
  now rewrite app_cons_str, IH.
Qed.

Lemma length_app_str (a b : string) :
  String.length (a +:+ b) = (String.length a + String.length b)%nat.
Proof.
  induction a as [|x a IH]; [reflexivity |].
  rewrite app_cons_str. simpl. now rewrite IH.
Qed.

Lemma app_inv_tail_str (a b t : string) : a +:+ t = b +:+ t -> a = b.
Proof.
  revert b. induction a as [|x a IH]; intros [|y b] H.
  - reflexivity.
  - apply (f_equal String.length) in H. rewrite !length_app_str in H. simpl in H. lia.
  - apply (f_equal String.length) in H. rewrite !length_app_str in H. simpl in H. lia.
  - rewrite !app_cons_str in H. injection H as -> H. f_equal. now apply IH.
Qed.

Lemma drop_app_length (a r : string) : Py.drop (String.length a) (a +:+ r) = r.
Proof.
  induction a as [|x a IH]; [now destruct r |].
  rewrite app_cons_str. exact IH.
Qed.

Lemma take_app_length (a r : string) : Py.take (String.length a) (a +:+ r) = a.
Proof.
  induction a as [|x a IH]; [now destruct r |].
  rewrite app_cons_str. simpl. now rewrite IH.
Qed.

Lemma find_at_lower (c : ascii) (s : string) (i : Z) :
  Py.find_at c s i = -1 \/ i <= Py.find_at c s i.
Proof.
  revert i. induction s as [|x s IH]; intros i; simpl.
  - now left.
  - destruct (Ascii.eqb x c); [right; lia |].
    destruct (IH (i + 1)) as [H | H]; [now left | right; lia].
Qed.

Lemma find_at_app_notin (c : ascii) (a r : string) (i : Z) :
  Py.contains c a = false ->
  Py.find_at c (a +:+ r) i = Py.find_at c r (i + Py.len a).
Proof.
  revert i. induction a as [|x a IH]; intros i H.
  - rewrite app_nil_str. unfold Py.len. simpl. f_equal. lia.
  - rewrite app_cons_str. simpl in *.
    apply orb_false_iff in H as [Hx Ha]. rewrite Hx, (IH _ Ha).
    f_equal. unfold Py.len. simpl String.length. lia.
Qed.

Lemma remove_app (c : ascii) (a b : string) :
  Py.remove c (a +:+ b) = Py.remove c a +:+ Py.remove c b.
Proof.
  induction a as [|x a IH]; [reflexivity |].
  rewrite app_cons_str. simpl.
  destruct (Ascii.eqb x c); [exact IH | now rewrite app_cons_str, IH].
Qed.

Lemma remove_notin (c : ascii) (a : string) :
  Py.contains c a = false -> Py.remove c a = a.
Proof.
  induction a as [|x a IH]; simpl; [reflexivity |].
  intros H. apply orb_false_iff in H as [Hx Ha]. now rewrite Hx, IH.
Qed.

Lemma contains_app (c : ascii) (a b : string) :
  Py.contains c (a +:+ b) = Py.contains c a || Py.contains c b.
Proof.
  induction a as [|x a IH]; [reflexivity |].
  rewrite app_cons_str. simpl. now rewrite IH, orb_assoc.
Qed.

Lemma forallb_notin (p : ascii -> bool) (c : ascii) (s : string) :
  p c = false -> Py.forallb p s = true -> Py.contains c s = false.
Proof.
  intros Hc. induction s as [|x s IH]; simpl; [reflexivity |].
  intros H. apply andb_true_iff in H as [Hx Hs]. rewrite (IH Hs), orb_false_r.
  destruct (Ascii.eqb_spec x c) as [-> |]; [congruence | reflexivity].
Qed.

Lemma drop_app_length_S (a : string) (x : ascii) (r : string) :
  Py.drop (S (String.length a)) (a +:+ String x r) = r.
Proof.
  induction a as [|y a IH]; [reflexivity |].
  rewrite app_cons_str. exact IH.
Qed.

(** ** Facts about [urlparse] *)

Lemma alpha_not_stripped (c : ascii) :
  Py.is_ascii_alpha c = true -> urllib._WHATWG_C0_CONTROL_OR_SPACE c = false.
Proof.
  unfold Py.is_ascii_alpha, urllib._WHATWG_C0_CONTROL_OR_SPACE.
  generalize (nat_of_ascii c). intros n H.
  apply Nat.leb_gt.
  apply orb_true_iff in H as [H | H]; apply andb_true_iff in H as [H _];
    apply Nat.leb_le in H; lia.
Qed.

Lemma remove_unsafe_app (a b : string) :
  remove_unsafe (a +:+ b) = remove_unsafe a +:+ remove_unsafe b.
Proof. unfold remove_unsafe. simpl. now rewrite !remove_app. Qed.

Lemma remove_unsafe_id (p : ascii -> bool) (a : string) :
  (forall c, is_unsafe c = true -> p c = false) ->
  Py.forallb p a = true -> remove_unsafe a = a.
Proof.
  intros Hp Ha. unfold remove_unsafe. simpl.
  assert (Hc : forall c, is_unsafe c = true -> Py.remove c a = a).
  { intros c Hc. apply remove_notin. eapply forallb_notin; [apply Hp, Hc | exact Ha]. }
  now rewrite !Hc.
Qed.

Lemma remove_unsafe_tail (r : string) :
  is_tail r = true -> is_tail (remove_unsafe r) = true.
Proof.
  destruct r as [|d r]; [reflexivity |]. simpl. intros Hd.
  unfold remove_unsafe. simpl.
  assert (Hne : forall c, is_delimiter c = false -> Ascii.eqb d c = false).
  { intros c Hc. destruct (Ascii.eqb_spec d c) as [-> |]; congruence. }
  repeat (simpl; rewrite Hne by reflexivity). exact Hd.
Qed.

Lemma after_scheme_strips (scheme rest : string) :
  is_scheme scheme = true ->
  urllib.after_scheme (scheme +:+ String ":" rest) = rest.
Proof.
  intros Hs. unfold is_scheme in Hs. apply andb_true_iff in Hs as [Hc Hall].
  destruct scheme as [|c scheme]; [discriminate |].
  assert (Hcolon : Py.contains ":" (String c scheme) = false).
  { eapply forallb_notin; [| exact Hall]. reflexivity. }
  unfold urllib.after_scheme, Py.find.
  rewrite (find_at_app_notin _ _ _ _ Hcolon).
  change (Py.find_at ":" (String ":" rest) (0 + Py.len (String c scheme)))
    with (0 + Py.len (String c scheme)).
  assert (Hlen : 0 + Py.len (String c scheme) = Z.of_nat (S (String.length scheme)))
    by reflexivity.
  rewrite Hlen.
  replace (0 <? Z.of_nat (S (String.length scheme))) with true
    by (symmetry; apply Z.ltb_lt; lia).
  rewrite app_cons_str at 1. rewrite Hc. simpl andb.
  unfold Py.slice_to, Py.slice_from.
  rewrite Nat2Z.id.
  change (S (String.length scheme)) with (String.length (String c scheme)).
  rewrite take_app_length, Hall.
  replace (Z.to_nat (Z.of_nat (String.length (String c scheme)) + 1))
    with (S (String.length (String c scheme))) by lia.
  apply drop_app_length_S.
Qed.

Lemma splitnetloc_authority (a r : string) :
  is_authority a = true -> is_tail r = true ->
  fst (urllib._splitnetloc (String "/" (String "/" (a +:+ r))) 2) = a.
Proof.
  intros Ha Hr. unfold urllib._splitnetloc, Py.find_from, Py.slice_from, Py.slice.
  change (Py.drop (Z.to_nat 2) (String "/" (String "/" (a +:+ r)))) with (a +:+ r).
  assert (Hno : forall c, is_delimiter c = true -> Py.contains c a = false).
  { intros c Hc. eapply forallb_notin; [| exact Ha]. simpl. now rewrite Hc. }
  cbn [fold_left fst].
  rewrite !find_at_app_notin by (apply Hno; reflexivity).
  set (L := 2 + Py.len a).
  assert (Hlen : Py.len (String "/" (String "/" (a +:+ r))) = L + Py.len r).
  { unfold L, Py.len. simpl String.length. rewrite length_app_str. lia. }
  rewrite Hlen.
  assert (HL : 0 <= Py.len a) by (unfold Py.len; lia).
  assert (Hdelim :
    (let d1 := if 0 <=? Py.find_at "/" r L then Z.min (L + Py.len r) (Py.find_at "/" r L)
               else L + Py.len r in
     let d2 := if 0 <=? Py.find_at "?" r L then Z.min d1 (Py.find_at "?" r L) else d1 in
     if 0 <=? Py.find_at "#" r L then Z.min d2 (Py.find_at "#" r L) else d2) = L).
  { destruct r as [|d r].
    - simpl. unfold Py.len. simpl. lia.
    - pose proof (find_at_lower "/" (String d r) L) as H1.
      pose proof (find_at_lower "?" (String d r) L) as H2.
      pose proof (find_at_lower "#" (String d r) L) as H3.
      assert (Hpos : 0 <= Py.len (String d r)) by (unfold Py.len; lia).
      assert (Hd : Py.find_at "/" (String d r) L = L \/ Py.find_at "?" (String d r) L = L
                   \/ Py.find_at "#" (String d r) L = L).
      { unfold is_tail, is_delimiter in Hr. cbn [Py.contains] in Hr. cbn [Py.find_at].
        rewrite (Ascii.eqb_sym _ d), (Ascii.eqb_sym "?" d), (Ascii.eqb_sym "#" d) in Hr.
        revert Hr.
        destruct (Ascii.eqb d "/"); [now left |].
        destruct (Ascii.eqb d "?"); [now right; left |].
        destruct (Ascii.eqb d "#"); [now right; right | discriminate]. }
      cbv zeta.
      destruct (Z.leb_spec 0 (Py.find_at "/" (String d r) L));
        destruct (Z.leb_spec 0 (Py.find_at "?" (String d r) L));
        destruct (Z.leb_spec 0 (Py.find_at "#" (String d r) L)); lia. }
  cbv zeta in Hdelim. rewrite Hdelim.
  replace (Z.to_nat (L - 2)) with (String.length a) by (unfold L, Py.len; lia).
  apply take_app_length.
Qed.

Lemma startswith_slashes (s : string) :
  Py.startswith (String "/" (String "/" s)) "//" = true.
Proof.
  unfold Py.startswith. cbn [String.prefix].
  destruct (ascii_dec "/" "/") as [_ | H]; [| now elim H].
  now destruct s.
Qed.

Lemma unsafe_not_scheme_char (c : ascii) :
  is_unsafe c = true -> Py.contains c urllib.scheme_chars = false.
Proof.
  unfold is_unsafe. cbn [existsb urllib._UNSAFE_URL_BYTES_TO_REMOVE].
  destruct (Ascii.eqb_spec c "009") as [-> |]; [reflexivity |].
  destruct (Ascii.eqb_spec c "013") as [-> |]; [reflexivity |].
  destruct (Ascii.eqb_spec c "010") as [-> |]; [reflexivity | discriminate].
Qed.

(** For [scheme://authority] followed by nothing or by a path, a query or a
    fragment, [urlparse] gives the authority as it is written: the scheme and
    what follows are cut off, the user information and the port are kept. *)
Lemma urlparse_netloc_authority (ok : string -> bool) (scheme authority rest : string) :
  is_scheme scheme = true ->
  is_authority authority = true ->
  brackets_accepted ok authority = true ->
  is_tail rest = true ->
  urllib.urlparse_netloc ok (scheme +:+ ("://" +:+ (authority +:+ rest))) = Ok authority.
Proof.
  intros Hs Ha Hb Hr. unfold urllib.urlparse_netloc.
  pose proof Hs as Hs'. unfold is_scheme in Hs'.
  apply andb_true_iff in Hs' as [Hc Hall].
  destruct scheme as [|c scheme]; [discriminate |].
  (* nothing is stripped on the left *)
  rewrite app_cons_str. cbn [Py.lstrip]. rewrite (alpha_not_stripped _ Hc).
  rewrite <- app_cons_str.
  (* the removals only touch what follows the authority *)
  fold (remove_unsafe (String c scheme +:+ ("://" +:+ (authority +:+ rest)))).
  rewrite !remove_unsafe_app.
  rewrite (remove_unsafe_id _ (String c scheme) unsafe_not_scheme_char Hall).
  rewrite (remove_unsafe_id (fun c => negb (is_delimiter c || is_unsafe c)) authority).
  2: { intros x Hx. rewrite Hx, orb_true_r. reflexivity. }
  2: exact Ha.
  change (remove_unsafe "://") with "://".
  pose proof (remove_unsafe_tail _ Hr) as Hr'.
  set (rest' := remove_unsafe rest) in *.
  (* the scheme is cut off *)
  change ("://" +:+ (authority +:+ rest'))
    with (String ":" (String "/" (String "/" (authority +:+ rest')))).
  rewrite (after_scheme_strips _ _ Hs).
  rewrite startswith_slashes.
  rewrite (splitnetloc_authority _ _ Ha Hr').
  (* the brackets *)
  unfold brackets_accepted in Hb. cbv zeta in Hb |- *.
  destruct (Py.contains "[" authority), (Py.contains "]" authority);
    simpl in Hb |- *; try discriminate; [now rewrite Hb | reflexivity].
Qed.

(** ** Facts about the monad and the child processes *)

Section ConfigFacts.
Context {W : World}.

Lemma subprocess_run_spec (a : list string) (i : option string) (t : Z) (s : state) :
  subprocess_run a i t s =
  (match process (calls s) (Invocation a i t) with
   | Completes p => Ok p
   | Fails e => Raise e
   end,
   State (_config s) (config_file s) (calls s ++ [Invocation a i t])).
Proof. unfold subprocess_run. now destruct (process _ _). Qed.

(** An erase logs one call and changes nothing else; it ends without an
    exception whenever the call raises none or an [Exception]. *)
Lemma _git_credential_erase_state (host path username : string) (s : state) :
  snd (_git_credential_erase host path username s) =
  State (_config s) (config_file s) (calls s ++ [reject_call host path username]).
Proof.
  unfold _git_credential_erase, try_except, mbind, M_bind, mret, M_ret.
  rewrite subprocess_run_spec.
  destruct (process _ _) as [p | e]; [reflexivity |]. now destruct (is_Exception e).
Qed.

Lemma _git_credential_erase_ok (host path username : string) (s : state) :
  raises_only_Exception process ->
  fst (_git_credential_erase host path username s) = Ok tt.
Proof.
  intros Hp. unfold _git_credential_erase, try_except, mbind, M_bind, mret, M_ret.
  rewrite subprocess_run_spec.
  destruct (process _ _) as [p | e] eqn:E; [reflexivity |]. now rewrite (Hp _ _ _ E).
Qed.

Lemma _git_credential_store_state (host path username password : string) (s : state) :
  snd (_git_credential_store host path username password s) =
  State (_config s) (config_file s) (calls s ++ [approve_call host path username password]).
Proof.
  unfold _git_credential_store, try_except, mbind, M_bind, mret, M_ret.
  rewrite subprocess_run_spec.
  destruct (process _ _) as [p | e]; [reflexivity |]. now destruct (is_Exception e).
Qed.

Lemma _git_credential_store_ok (host path username password : string) (s : state) :
  raises_only_Exception process ->
  fst (_git_credential_store host path username password s) = Ok tt.
Proof.
  intros Hp. unfold _git_credential_store, try_except, mbind, M_bind, mret, M_ret.
  rewrite subprocess_run_spec.
  destruct (process _ _) as [p | e] eqn:E; [reflexivity |]. now rewrite (Hp _ _ _ E).
Qed.

Lemma _git_credential_get_state (host path username : string) (s : state) :
  snd (_git_credential_get host path username s) =
  State (_config s) (config_file s) (calls s ++ [fill_call host path username]).
Proof.
  unfold _git_credential_get, try_except, mbind, M_bind, mret, M_ret, raise.
  rewrite subprocess_run_spec.
  destruct (process _ _) as [p | e]; [| now destruct (is_Exception e)].
  destruct (returncode p =? 0); [| reflexivity].
  destruct (List.find _ _) as [line |]; [| reflexivity].
  now destruct (Py.split1 "=" line) as [| ? [| ? ?]].
Qed.

Lemma _git_credential_get_ok (host path username : string) (s : state) :
  raises_only_Exception process ->
  exists v, fst (_git_credential_get host path username s) = Ok v.
Proof.
  intros Hp. unfold _git_credential_get, try_except, mbind, M_bind, mret, M_ret, raise.
  rewrite subprocess_run_spec.
  destruct (process _ _) as [p | e] eqn:E.
  - destruct (returncode p =? 0); [| now eexists].
    destruct (List.find _ _) as [line |]; [| now eexists].
    destruct (Py.split1 "=" line) as [| ? [| ? ?]]; now eexists.
  - rewrite (Hp _ _ _ E). now eexists.
Qed.

Lemma find_none_of_existsb {A} (f : A -> bool) (l : list A) :
  existsb f l = false -> List.find f l = None.
Proof.
  induction l as [|x l IH]; simpl; [reflexivity |].
  destruct (f x); [discriminate | exact IH].
Qed.

(** A fill that fails gives [None]. *)
Lemma _git_credential_get_failed (host path username : string) (s : state) :
  fill_failed (process (calls s) (fill_call host path username)) ->
  fst (_git_credential_get host path username s) = Ok None.
Proof.
  unfold _git_credential_get, try_except, mbind, M_bind, mret, M_ret, raise.
  rewrite subprocess_run_spec. fold (fill_call host path username).
  destruct (process _ _) as [p | e]; simpl.
  - intros [Hrc | Hout].
    + destruct (Z.eqb_spec (returncode p) 0); [contradiction | reflexivity].
    + destruct (returncode p =? 0); [| reflexivity].
      now rewrite (find_none_of_existsb _ _ Hout).
  - now intros ->.
Qed.

(** The path-scoping step: the read is logged; the write follows exactly when
    the read ended and did not end with status 0 and the output [true]. *)
Lemma _ensure_use_http_path_state (host : string) (s : state) :
  exists extra,
    snd (_ensure_use_http_path host s) =
    State (_config s) (config_file s) (calls s ++ config_get_call host :: extra)
    /\ ((extra = [config_set_call host]
         /\ exists p, process (calls s) (config_get_call host) = Completes p
                      /\ (returncode p <> 0 \/ Py.strip (stdout p) <> "true"))
        \/ (extra = []
            /\ ((exists e, process (calls s) (config_get_call host) = Fails e)
                \/ exists p, process (calls s) (config_get_call host) = Completes p
                             /\ returncode p = 0 /\ Py.strip (stdout p) = "true"))).
Proof.
  unfold _ensure_use_http_path, try_except, mbind, M_bind, mret, M_ret.
  rewrite subprocess_run_spec. fold (config_get_call host).
  destruct (process (calls s) (config_get_call host)) as [p | e] eqn:E.
  - destruct (Z.eqb_spec (returncode p) 0) as [Hrc | Hrc];
      [destruct (String.eqb_spec (Py.strip (stdout p)) "true") as [Hout | Hout] |];
      cbn [negb orb].
    + exists []. split; [reflexivity |]. right. split; [reflexivity |]. right. eauto.
    + exists [config_set_call host]. rewrite subprocess_run_spec. cbn [calls].
      fold (config_set_call host). split.
      * destruct (process _ (config_set_call host)) as [q | e']; cbn [snd];
          [| destruct (is_Exception e')]; cbn [snd _config config_file calls];
          now rewrite <- app_assoc.
      * left. eauto.
    + exists [config_set_call host]. rewrite subprocess_run_spec. cbn [calls].
      fold (config_set_call host). split.
      * destruct (process _ (config_set_call host)) as [q | e']; cbn [snd];
          [| destruct (is_Exception e')]; cbn [snd _config config_file calls];
          now rewrite <- app_assoc.
      * left. eauto.
  - exists []. split; [now destruct (is_Exception e) |]. right. eauto.
Qed.

Lemma _ensure_use_http_path_ok (host : string) (s : state) :
  raises_only_Exception process ->
  fst (_ensure_use_http_path host s) = Ok tt.
Proof.
  intros Hp. unfold _ensure_use_http_path, try_except, mbind, M_bind, mret, M_ret.
  rewrite subprocess_run_spec.
  destruct (process (calls s) _) as [p | e] eqn:E; [| now rewrite (Hp _ _ _ E)].
  destruct (negb _ || negb _); [| reflexivity].
  rewrite subprocess_run_spec. cbn [calls].
  destruct (process (calls s ++ _) _) as [q | e] eqn:E';
    [reflexivity | now rewrite (Hp _ _ _ E')].
Qed.

(** The three operations, once the identity is derived. *)
Lemma get_github_token_unfold (tenant_id : string) (repo_name : option string) (s : state) :
  get_github_token tenant_id repo_name s =
  match _get_git_credential_info (_config s) tenant_id repo_name with
  | Ok (host, path) => _git_credential_get host path tenant_id s
  | Raise e => (Raise e, s)
  end.
Proof.
  unfold get_github_token, mbind, M_bind.
  now destruct (_get_git_credential_info _ _ _) as [[host path] | e].
Qed.

Lemma delete_github_token_unfold (tenant_id : string) (repo_name : option string) (s : state) :
  delete_github_token tenant_id repo_name s =
  match _get_git_credential_info (_config s) tenant_id repo_name with
  | Ok (host, path) => _git_credential_erase host path tenant_id s
  | Raise e => (Raise e, s)
  end.
Proof.
  unfold delete_github_token, mbind, M_bind.
  now destruct (_get_git_credential_info _ _ _) as [[host path] | e].
Qed.

Lemma set_github_token_unfold (tenant_id token : string) (repo_name : option string)
    (s : state) :
  set_github_token tenant_id token repo_name s =
  match _get_git_credential_info (_config s) tenant_id repo_name with
  | Ok (host, path) =>
      match _ensure_use_http_path host s with
      | (Ok _, s') => _git_credential_store host path tenant_id token s'
      | (Raise e, s') => (Raise e, s')
      end
  | Raise e => (Raise e, s)
  end.
Proof.
  unfold set_github_token, mbind, M_bind.
  now destruct (_get_git_credential_info _ _ _) as [[host path] | e].
Qed.

(** The derivation, branch by branch. *)
Lemma _get_git_credential_info_eq (c : settings) (tenant_id : string)
    (repo_name : option string) :
  _get_git_credential_info c tenant_id repo_name =
  if Py.truthy (lfs_endpoint c) then
    match urllib.urlparse_netloc bracketed_netloc_ok (lfs_endpoint c) with
    | Ok netloc => Ok (netloc, identity_path tenant_id repo_name)
    | Raise e => Raise e
    end
  else Ok ("candy-lfs.local", identity_path tenant_id repo_name).
Proof.
  unfold _get_git_credential_info.
  destruct (Py.truthy (lfs_endpoint c)), repo_name as [[|x r] |]; reflexivity.
Qed.

Lemma truthy_iff (s : string) : Py.truthy s = false <-> s = EmptyString.
Proof. destruct s; simpl; split; congruence. Qed.

(** ** The credential identity *)

(** C1, as amended.  When the LFS endpoint (the configured one, else the build
    or environment default) is empty, the host is [candy-lfs.local]; when it
    is not, the host is the authority [urlparse] reads in it, and for an
    endpoint [scheme://authority] followed by nothing or by a path, a query
    or a fragment that is [authority] as written: the scheme and the path are
    cut off, the user information and the port are kept.  In both cases the
    path is [tenant_id] when the repository name is absent or empty, and
    [tenant_id/repo_name] otherwise. *)
Theorem identity_derivation (c : settings) (tenant_id : string) (repo_name : option string) :
  (lfs_endpoint c = EmptyString ->
   _get_git_credential_info c tenant_id repo_name
   = Ok ("candy-lfs.local", identity_path tenant_id repo_name))
  /\ (forall host,
        lfs_endpoint c <> EmptyString ->
        urllib.urlparse_netloc bracketed_netloc_ok (lfs_endpoint c) = Ok host ->
        _get_git_credential_info c tenant_id repo_name
        = Ok (host, identity_path tenant_id repo_name))
  /\ (forall scheme authority rest,
        is_scheme scheme = true ->
        is_authority authority = true ->
        brackets_accepted bracketed_netloc_ok authority = true ->
        is_tail rest = true ->
        lfs_endpoint c = scheme +:+ ("://" +:+ (authority +:+ rest)) ->
        _get_git_credential_info c tenant_id repo_name
        = Ok (authority, identity_path tenant_id repo_name))
  /\ identity_path tenant_id None = tenant_id
  /\ identity_path tenant_id (Some EmptyString) = tenant_id
  /\ (forall x r, identity_path tenant_id (Some (String x r))
                  = tenant_id +:+ ("/" +:+ String x r)).
Proof.
  rewrite _get_git_credential_info_eq. repeat split.
  - intros ->. reflexivity.
  - intros host Hne Hhost.
    destruct (Py.truthy (lfs_endpoint c)) eqn:Ht;
      [now rewrite Hhost | now apply truthy_iff in Ht].
  - intros scheme authority rest Hs Ha Hb Hr ->.
    rewrite (urlparse_netloc_authority _ _ _ _ Hs Ha Hb Hr).
    unfold is_scheme in Hs. now destruct scheme.
Qed.

(** C10.  An endpoint set to the empty string gives the fallback host
    [candy-lfs.local], whatever the environment default is, and the same
    identity as a document with no endpoint and an empty default; a host
    other than the fallback is derived only from an endpoint that is not
    empty; and [urlparse] would have read the empty authority in it. *)
Theorem empty_endpoint_is_unconfigured (c : settings) (tenant_id : string)
    (repo_name : option string) :
  cfg_lfs_endpoint c = Some EmptyString ->
  _get_git_credential_info c tenant_id repo_name
  = Ok ("candy-lfs.local", identity_path tenant_id repo_name)
  /\ (forall c', cfg_lfs_endpoint c' = None -> DEFAULT_LFS_ENDPOINT = EmptyString ->
                 _get_git_credential_info c' tenant_id repo_name
                 = _get_git_credential_info c tenant_id repo_name)
  /\ (forall c' host path,
        _get_git_credential_info c' tenant_id repo_name = Ok (host, path) ->
        host <> "candy-lfs.local" ->
        Py.truthy (lfs_endpoint c') = true)
  /\ urllib.urlparse_netloc bracketed_netloc_ok (lfs_endpoint c) = Ok EmptyString.
Proof.
  intros Hc.
  assert (He : lfs_endpoint c = EmptyString) by (unfold lfs_endpoint; now rewrite Hc).
  rewrite !_get_git_credential_info_eq, He. repeat split.
  - intros c' Hc' Hd. rewrite _get_git_credential_info_eq.
    unfold lfs_endpoint. now rewrite Hc', Hd.
  - intros c' host path. rewrite _get_git_credential_info_eq.
    destruct (Py.truthy (lfs_endpoint c')); [reflexivity |].
    intros [= <- _] Hne. now elim Hne.
Qed.




(** C3.  Whatever the helper does (it cannot be started, it ends with a
    status that is not zero, it runs out of time, its output is malformed), a
    retrieve, a store and an erase end without an exception and leave the
    settings and the configuration file as they are; a retrieve whose fill
    failed gives [None].  The only exception that leaves them is the one of
    the identity derivation, raised before any helper is called. *)
Theorem helper_failures_swallowed (s : state) (tenant_id token : string)
    (repo_name : option string) :
  raises_only_Exception process ->
  (forall host path,
     _get_git_credential_info (_config s) tenant_id repo_name = Ok (host, path) ->
     (exists v, fst (get_github_token tenant_id repo_name s) = Ok v)
     /\ (fill_failed (process (calls s) (fill_call host path tenant_id)) ->
         fst (get_github_token tenant_id repo_name s) = Ok None)
     /\ fst (set_github_token tenant_id token repo_name s) = Ok tt
     /\ fst (delete_github_token tenant_id repo_name s) = Ok tt
     /\ same_settings s (snd (get_github_token tenant_id repo_name s))
     /\ same_settings s (snd (set_github_token tenant_id token repo_name s))
     /\ same_settings s (snd (delete_github_token tenant_id repo_name s)))
  /\ (forall e,
        _get_git_credential_info (_config s) tenant_id repo_name = Raise e ->
        get_github_token tenant_id repo_name s = (Raise e, s)
        /\ set_github_token tenant_id token repo_name s = (Raise e, s)
        /\ delete_github_token tenant_id repo_name s = (Raise e, s)).
Proof.
  intros Hp.
  rewrite get_github_token_unfold, delete_github_token_unfold, set_github_token_unfold.
  split.
  - intros host path ->.
    rewrite _git_credential_get_state, _git_credential_erase_state.
    split; [now apply _git_credential_get_ok |].
    split; [apply _git_credential_get_failed |].
    pose proof (_ensure_use_http_path_ok host s Hp) as Hok.
    destruct (_ensure_use_http_path_state host s) as (extra & Hs & _).
    destruct (_ensure_use_http_path host s) as [r s']. cbn [fst snd] in Hok, Hs. subst r s'.
    rewrite _git_credential_store_state.
    split; [now apply _git_credential_store_ok |].
    split; [now apply _git_credential_erase_ok |].
    now repeat split.
  - intros e ->. now repeat split.
Qed.

(** C9, as amended.  The path-scoping step reads
    [credential.https://<host>.useHttpPath] first, and then writes [true]
    exactly when the read ended (it did not raise) and did not end with
    status 0 and the output [true]; a read that raises, or that gives [true],
    is followed by no write.  A store runs the step before the approve. *)
Theorem path_scoping_check_then_set (host : string) (s : state) :
  (exists extra,
     calls (snd (_ensure_use_http_path host s)) = calls s ++ config_get_call host :: extra
     /\ ((extra = [config_set_call host]
          /\ exists p, process (calls s) (config_get_call host) = Completes p
                       /\ (returncode p <> 0 \/ Py.strip (stdout p) <> "true"))
         \/ (extra = []
             /\ ((exists e, process (calls s) (config_get_call host) = Fails e)
                 \/ exists p, process (calls s) (config_get_call host) = Completes p
                              /\ returncode p = 0 /\ Py.strip (stdout p) = "true"))))
  /\ (forall tenant_id token repo_name path,
        raises_only_Exception process ->
        _get_git_credential_info (_config s) tenant_id repo_name = Ok (host, path) ->
        calls (snd (set_github_token tenant_id token repo_name s))
        = calls (snd (_ensure_use_http_path host s))
          ++ [approve_call host path tenant_id token]).
Proof.
  split.
  - destruct (_ensure_use_http_path_state host s) as (extra & Hs & Hextra).
    exists extra. now rewrite Hs.
  - intros tenant_id token repo_name path Hp Hinfo.
    rewrite set_github_token_unfold, Hinfo.
    pose proof (_ensure_use_http_path_ok host s Hp) as Hok.
    destruct (_ensure_use_http_path host s) as [r s']. cbn [fst snd] in *. subst r.
    now rewrite _git_credential_store_state.
Qed.

End ConfigFacts.

(** ** Facts about tenant lists *)

Lemma entries_of_cons (tenant_id : string) (e : tenant) (l : list tenant) :
  entries_of tenant_id (e :: l) =
  if String.eqb (t_tenant_id e) tenant_id then e :: entries_of tenant_id l
  else entries_of tenant_id l.
Proof. reflexivity. Qed.

Lemma entries_of_app (tenant_id : string) (l1 l2 : list tenant) :
  entries_of tenant_id (l1 ++ l2) = entries_of tenant_id l1 ++ entries_of tenant_id l2.
Proof. apply List.filter_app. Qed.

Lemma entries_of_nil_lookup (tenant_id : string) (l : list tenant) (j : nat) (e : tenant) :
  entries_of tenant_id l = [] -> l !! j = Some e -> t_tenant_id e <> tenant_id.
Proof.
  revert j. induction l as [|a l IH]; intros j Hnil Hj; [discriminate |].
  rewrite entries_of_cons in Hnil.
  destruct (String.eqb_spec (t_tenant_id a) tenant_id) as [| Hne]; [discriminate |].
  destruct j as [|j]; [now injection Hj as <- | exact (IH j Hnil Hj)].
Qed.

(** The loop of [add_tenant] either finds no entry, or renames the first one
    where it stands. *)
Lemma rename_first_cases (tenant_id name : string) (l : list tenant) :
  (rename_first tenant_id name l = None /\ entries_of tenant_id l = [])
  \/ (exists pre e post,
        l = pre ++ e :: post
        /\ entries_of tenant_id pre = []
        /\ t_tenant_id e = tenant_id
        /\ rename_first tenant_id name l = Some (pre ++ Tenant tenant_id name :: post)).
Proof.
  induction l as [|a l IH]; [now left |].
  cbn [rename_first]. rewrite entries_of_cons.
  destruct (String.eqb_spec (t_tenant_id a) tenant_id) as [Ha | Ha].
  - right. exists [], a, l. now rewrite Ha.
  - destruct IH as [[-> Hnil] | (pre & e & post & -> & Hpre & He & ->)]; [now left |].
    right. exists (a :: pre), e, post. repeat split; [| exact He].
    rewrite entries_of_cons.
    now destruct (String.eqb_spec (t_tenant_id a) tenant_id).
Qed.

(** The first entry of a tenant stands after a prefix without one. *)
Lemma first_entry_position (tenant_id : string) (pre post : list tenant) (e e' : tenant)
    (i : nat) :
  entries_of tenant_id pre = [] ->
  (pre ++ e :: post) !! i = Some e' ->
  t_tenant_id e' = tenant_id ->
  (length pre <= i)%nat.
Proof.
  intros Hpre Hi He'.
  destruct (Nat.le_gt_cases (length pre) i) as [H | H]; [exact H |].
  rewrite lookup_app_l in Hi by exact H.
  now elim (entries_of_nil_lookup _ _ _ _ Hpre Hi).
Qed.

Lemma remove_keeps_others (tenant_id : string) (l : list tenant) :
  entries_of tenant_id l = [] ->
  List.filter (fun t => negb (String.eqb (t_tenant_id t) tenant_id)) l = l.
Proof.
  induction l as [|a l IH]; [reflexivity |].
  rewrite entries_of_cons. cbn [List.filter].
  destruct (String.eqb (t_tenant_id a) tenant_id); [discriminate |].
  intros H. cbn [negb]. now rewrite (IH H).
Qed.

Lemma remove_leaves_none (tenant_id : string) (l : list tenant) :
  entries_of tenant_id
    (List.filter (fun t => negb (String.eqb (t_tenant_id t) tenant_id)) l) = [].
Proof.
  induction l as [|a l IH]; [reflexivity |].
  cbn [List.filter].
  destruct (String.eqb (t_tenant_id a) tenant_id) eqn:E; cbn [negb]; [exact IH |].
  now rewrite entries_of_cons, E.
Qed.

Lemma dict_falsy_empty (d : settings) : dict_truthy d = false -> d = empty_settings.
Proof. now destruct d as [[] [] [] [] []]. Qed.

Lemma rename_first_middle (tenant_id name : string) (pre post : list tenant) (e : tenant) :
  entries_of tenant_id pre = [] ->
  t_tenant_id e = tenant_id ->
  rename_first tenant_id name (pre ++ e :: post) = Some (pre ++ Tenant tenant_id name :: post).
Proof.
  intros Hpre He. induction pre as [|a pre IH]; cbn [app rename_first].
  - rewrite He, String.eqb_refl. reflexivity.
  - rewrite entries_of_cons in Hpre.
    destruct (String.eqb (t_tenant_id a) tenant_id); [discriminate |].
    now rewrite (IH Hpre).
Qed.

(** A list with one entry for the tenant, between two parts without one. *)
Lemma single_entry_position (tenant_id : string) (pre post : list tenant) (e e' : tenant)
    (j : nat) :
  entries_of tenant_id pre = [] ->
  entries_of tenant_id post = [] ->
  (pre ++ e :: post) !! j = Some e' ->
  t_tenant_id e' = tenant_id ->
  j = length pre.
Proof.
  intros Hpre Hpost Hj He'.
  pose proof (first_entry_position _ _ _ _ _ _ Hpre Hj He') as Hle.
  destruct (decide (j = length pre)) as [| Hne]; [assumption | exfalso].
  rewrite lookup_app_r in Hj by exact Hle.
  destruct (j - length pre)%nat as [|k] eqn:Hk; [lia |].
  cbn in Hj. now elim (entries_of_nil_lookup _ _ _ _ Hpost Hj).
Qed.

Lemma entries_of_single (tenant_id name : string) (pre post : list tenant) :
  entries_of tenant_id pre = [] ->
  entries_of tenant_id post = [] ->
  entries_of tenant_id (pre ++ Tenant tenant_id name :: post) = [Tenant tenant_id name].
Proof.
  intros Hpre Hpost.
  rewrite entries_of_app, Hpre, entries_of_cons. cbn [t_tenant_id].
  now rewrite String.eqb_refl, Hpost.
Qed.

Lemma insert_middle (pre post : list tenant) (e x : tenant) :
  <[length pre := x]> (pre ++ e :: post) = pre ++ x :: post.
Proof.
  replace (length pre) with (length pre + 0)%nat by lia.
  now rewrite insert_app_r.
Qed.

(** ** The settings store *)

Section SettingsStoreFacts.
Context {W : World}.

Lemma add_tenant_list (tenant_id name : string) (s : state) :
  get_tenant_list (_config (snd (add_tenant tenant_id name s))) =
  match rename_first tenant_id name (get_tenant_list (_config s)) with
  | Some renamed => renamed
  | None => get_tenant_list (_config s) ++ [Tenant tenant_id name]
  end.
Proof. reflexivity. Qed.

(** C5.  [add_tenant] ends without an exception.  When the tenant has an
    entry, the first one is renamed where it stands and the list keeps its
    length; when it has none, a new entry is appended.  On a list of the data
    model, with at most one entry for the tenant, two calls with two names
    leave exactly one entry for it, with the second name, at the position it
    had after the first call, which is the position of the entry the list had
    before. *)
Theorem add_tenant_updates_or_appends (s : state) (tenant_id name : string) :
  let tenants := get_tenant_list (_config s) in
  let s1 := snd (add_tenant tenant_id name s) in
  let tenants1 := get_tenant_list (_config s1) in
  fst (add_tenant tenant_id name s) = Ok tt
  /\ (forall i e,
        tenants !! i = Some e -> t_tenant_id e = tenant_id ->
        (forall j e', (j < i)%nat -> tenants !! j = Some e' -> t_tenant_id e' <> tenant_id) ->
        tenants1 = <[i := Tenant tenant_id name]> tenants
        /\ length tenants1 = length tenants)
  /\ (entries_of tenant_id tenants = [] ->
      tenants1 = tenants ++ [Tenant tenant_id name])
  /\ (forall name2,
        (length (entries_of tenant_id tenants) <= 1)%nat ->
        let tenants2 := get_tenant_list (_config (snd (add_tenant tenant_id name2 s1))) in
        entries_of tenant_id tenants2 = [Tenant tenant_id name2]
        /\ exists i,
             tenants1 !! i = Some (Tenant tenant_id name)
             /\ tenants2 = <[i := Tenant tenant_id name2]> tenants1
             /\ forall j e, tenants !! j = Some e -> t_tenant_id e = tenant_id -> j = i).
Proof.
  intros tenants s1 tenants1.
  assert (H1 : tenants1 = match rename_first tenant_id name tenants with
                          | Some renamed => renamed
                          | None => tenants ++ [Tenant tenant_id name]
                          end) by apply add_tenant_list.
  split; [reflexivity |]. split; [| split].
  - intros i e Hi He Hfirst.
    assert (tenants1 = <[i := Tenant tenant_id name]> tenants) as ->;
      [| split; [reflexivity | apply length_insert]].
    rewrite H1.
    destruct (rename_first_cases tenant_id name tenants)
      as [[_ Hnil] | (pre & e0 & post & Hl & Hpre & He0 & ->)].
    + now elim (entries_of_nil_lookup _ _ _ _ Hnil Hi).
    + rewrite Hl in *.
      pose proof (first_entry_position _ _ _ _ _ _ Hpre Hi He) as Hle.
      assert (i = length pre) as ->.
      { destruct (decide (i = length pre)) as [| Hne]; [assumption | exfalso].
        apply (Hfirst (length pre) e0); [lia | apply list_lookup_middle; reflexivity
                                         | exact He0]. }
      now rewrite insert_middle.
  - intros Hnil. rewrite H1.
    destruct (rename_first_cases tenant_id name tenants)
      as [[-> _] | (pre & e0 & post & Hl & Hpre & He0 & _)]; [reflexivity |].
    rewrite Hl, entries_of_app, entries_of_cons, He0, String.eqb_refl in Hnil.
    now destruct (entries_of tenant_id pre).
  - intros name2 Hone tenants2.
    assert (H2 : tenants2 = match rename_first tenant_id name2 tenants1 with
                            | Some renamed => renamed
                            | None => tenants1 ++ [Tenant tenant_id name2]
                            end) by apply add_tenant_list.
    assert (Hshape : exists pre post,
               tenants1 = pre ++ Tenant tenant_id name :: post
               /\ entries_of tenant_id pre = [] /\ entries_of tenant_id post = []
               /\ forall j e, tenants !! j = Some e -> t_tenant_id e = tenant_id ->
                              j = length pre).
    { rewrite H1.
      destruct (rename_first_cases tenant_id name tenants)
        as [[-> Hnil] | (pre & e0 & post & Hl & Hpre & He0 & ->)].
      - exists tenants, []. repeat split; [exact Hnil |].
        intros j e Hj He. now elim (entries_of_nil_lookup _ _ _ _ Hnil Hj).
      - assert (Hpost : entries_of tenant_id post = []).
        { rewrite Hl, entries_of_app, Hpre, entries_of_cons, He0, String.eqb_refl in Hone.
          cbn in Hone. destruct (entries_of tenant_id post); [reflexivity | cbn in Hone; lia]. }
        exists pre, post. repeat split; [exact Hpre | exact Hpost |].
        intros j e Hj He. rewrite Hl in Hj.
        exact (single_entry_position _ _ _ _ _ _ Hpre Hpost Hj He). }
    destruct Hshape as (pre & post & Hl1 & Hpre & Hpost & Hpos).
    rewrite Hl1 in H2.
    rewrite (rename_first_middle _ name2 _ post (Tenant tenant_id name) Hpre eq_refl) in H2.
    rewrite H2, Hl1. split; [now apply entries_of_single |].
    exists (length pre). split; [now apply list_lookup_middle |].
    split; [now rewrite insert_middle | exact Hpos].
Qed.

Lemma remove_tenant_unfold (tenant_id : string) (s : state) :
  remove_tenant tenant_id s =
  let c' := set_tenants
              (List.filter (fun t => negb (String.eqb (t_tenant_id t) tenant_id))
                           (get_tenant_list (_config s)))
              (_config s) in
  delete_github_token tenant_id None (State c' (Some (yaml_dump c')) (calls s)).
Proof. reflexivity. Qed.

(** The derivation reads the endpoint only. *)
Lemma _get_git_credential_info_endpoint (c c' : settings) (tenant_id : string)
    (repo_name : option string) :
  cfg_lfs_endpoint c' = cfg_lfs_endpoint c ->
  _get_git_credential_info c' tenant_id repo_name
  = _get_git_credential_info c tenant_id repo_name.
Proof.
  intros H. rewrite !_get_git_credential_info_eq. unfold lfs_endpoint. now rewrite H.
Qed.

(** C6, as amended.  [remove_tenant] leaves the other entries in their order
    and no entry for the tenant; a list without the tenant is left as it is;
    the repository lists are not touched; the document is saved.  Then, when
    the identity of the tenant without a repository can be derived (the
    endpoint is empty or [urlparse] accepts it), its credential is erased and
    the method ends without an exception, also when the tenant was never
    present. *)
Theorem remove_tenant_spec (s : state) (tenant_id : string) :
  let s' := snd (remove_tenant tenant_id s) in
  get_tenant_list (_config s')
  = List.filter (fun t => negb (String.eqb (t_tenant_id t) tenant_id))
                (get_tenant_list (_config s))
  /\ entries_of tenant_id (get_tenant_list (_config s')) = []
  /\ (entries_of tenant_id (get_tenant_list (_config s)) = [] ->
      get_tenant_list (_config s') = get_tenant_list (_config s))
  /\ cfg_tenant_repos (_config s') = cfg_tenant_repos (_config s)
  /\ config_file s' = Some (yaml_dump (_config s'))
  /\ (forall host path,
        raises_only_Exception process ->
        _get_git_credential_info (_config s) tenant_id None = Ok (host, path) ->
        fst (remove_tenant tenant_id s) = Ok tt
        /\ path = tenant_id
        /\ calls s' = calls s ++ [reject_call host tenant_id tenant_id]).
Proof.
  intros s'. subst s'. rewrite remove_tenant_unfold. cbv zeta.
  set (kept := List.filter _ (get_tenant_list (_config s))).
  set (c' := set_tenants kept (_config s)).
  rewrite delete_github_token_unfold. cbn [_config].
  assert (Hinfo : _get_git_credential_info c' tenant_id None
                  = _get_git_credential_info (_config s) tenant_id None)
    by now apply _get_git_credential_info_endpoint.
  rewrite Hinfo.
  assert (Hpath : forall host path,
             _get_git_credential_info (_config s) tenant_id None = Ok (host, path) ->
             path = tenant_id).
  { intros host path. rewrite _get_git_credential_info_eq.
    destruct (Py.truthy _); [destruct (urllib.urlparse_netloc _ _) |];
      now intros [= _ <-]. }
  assert (Hlist : forall st, get_tenant_list (_config (State c' (Some (yaml_dump c')) st))
                             = kept) by reflexivity.
  destruct (_get_git_credential_info (_config s) tenant_id None) as [[host path] | e] eqn:E.
  - rewrite _git_credential_erase_state. cbn [snd _config config_file calls].
    split; [reflexivity |]. split; [apply remove_leaves_none |].
    split; [intros Hnil; now apply remove_keeps_others |].
    split; [reflexivity |]. split; [reflexivity |].
    intros host' path' Hp [= <- <-].
    split; [now apply _git_credential_erase_ok |].
    rewrite (Hpath host path eq_refl). now split.
  - cbn [snd _config config_file calls].
    split; [reflexivity |]. split; [apply remove_leaves_none |].
    split; [intros Hnil; now apply remove_keeps_others |].
    split; [reflexivity |]. split; [reflexivity |].
    discriminate.
Qed.

Lemma set_tenant_repos_unfold (tenant_id : string) (repo_names : list string) (s : state) :
  set_tenant_repos tenant_id repo_names s =
  let m := default ∅ (cfg_tenant_repos (_config s)) in
  let c' := set_tenant_repos_key (<[tenant_id := repo_names]> m) (_config s) in
  (Ok tt, State c' (Some (yaml_dump c')) (calls s)).
Proof.
  unfold set_tenant_repos, modify, _save_config, mbind, M_bind. cbn [_config config_file calls].
  destruct s as [c f l]. cbn [_config config_file calls].
  now destruct c as [a b d e [m |]].
Qed.

(** C7.  [set_tenant_repos] replaces the tenant's list: a later
    [get_tenant_repos] gives the names in the same order, the lists of the
    other tenants are the same, and the document is saved.  A tenant with no
    list has the empty list. *)
Theorem set_then_get_tenant_repos (s : state) (tenant_id : string) (names : list string) :
  let s' := snd (set_tenant_repos tenant_id names s) in
  fst (set_tenant_repos tenant_id names s) = Ok tt
  /\ get_tenant_repos (_config s') tenant_id = names
  /\ (forall other, other <> tenant_id ->
        get_tenant_repos (_config s') other = get_tenant_repos (_config s) other)
  /\ config_file s' = Some (yaml_dump (_config s'))
  /\ (forall c unknown,
        default ∅ (cfg_tenant_repos c) !! unknown = None ->
        get_tenant_repos c unknown = []).
Proof.
  intros s'. subst s'. rewrite set_tenant_repos_unfold. cbv zeta.
  cbn [fst snd _config config_file]. unfold get_tenant_repos.
  cbn [set_tenant_repos_key cfg_tenant_repos default from_option id].
  repeat split.
  - now rewrite lookup_insert_eq.
  - intros other Hne. now rewrite lookup_insert_ne.
  - intros c unknown ->. reflexivity.
Qed.

(** Two erase records for one host and one user name differ when the paths do. *)
Lemma reject_call_inj_path (host p1 p2 username : string) :
  reject_call host p1 username = reject_call host p2 username -> p1 = p2.
Proof.
  intros [= H]. unfold credential_input in H.
  repeat apply (inj (String.append _)) in H.
  now apply app_inv_tail_str in H.
Qed.

Lemma identity_path_bare (tenant_id : string) (r : string) :
  identity_path tenant_id (Some r) = tenant_id -> r = EmptyString.
Proof.
  destruct r as [|x r]; [reflexivity |]. cbn [identity_path]. intros H.
  apply (f_equal String.length) in H. rewrite !length_app_str in H. cbn in H. lia.
Qed.

Lemma _get_git_credential_info_repo (c : settings) (tenant_id host path : string)
    (repo_name : option string) :
  _get_git_credential_info c tenant_id None = Ok (host, path) ->
  _get_git_credential_info c tenant_id repo_name
  = Ok (host, identity_path tenant_id repo_name).
Proof.
  rewrite !_get_git_credential_info_eq.
  destruct (Py.truthy _); [destruct (urllib.urlparse_netloc _ _) |];
    now intros [= <- _].
Qed.

(** The loop of [delete_all_tenant_credentials]: one erase for each name, in
    the order of the list, and nothing else changes. *)
Lemma erase_each_repo (tenant_id host path : string) (repos : list string) (s : state) :
  raises_only_Exception process ->
  _get_git_credential_info (_config s) tenant_id None = Ok (host, path) ->
  for_each repos (fun repo_name => delete_github_token tenant_id (Some repo_name)) s =
  (Ok tt,
   State (_config s) (config_file s)
         (calls s ++ map (fun r => reject_call host (identity_path tenant_id (Some r)) tenant_id)
                         repos)).
Proof.
  intros Hp. revert s. induction repos as [|r repos IH]; intros s Hinfo.
  - cbn. rewrite app_nil_r. now destruct s.
  - cbn [for_each map]. unfold mbind, M_bind.
    rewrite delete_github_token_unfold, (_get_git_credential_info_repo _ _ _ _ _ Hinfo).
    rewrite (surjective_pairing (_git_credential_erase _ _ _ _)).
    rewrite _git_credential_erase_state, (_git_credential_erase_ok _ _ _ _ Hp).
    rewrite IH by exact Hinfo. cbn [_config config_file calls].
    now rewrite <- app_assoc.
Qed.

Lemma _clear_tenant_repos_unfold (tenant_id : string) (s : state) :
  _clear_tenant_repos tenant_id s =
  let m := default ∅ (cfg_tenant_repos (_config s)) in
  match m !! tenant_id with
  | Some _ =>
      let c' := set_tenant_repos_key (delete tenant_id m) (_config s) in
      (Ok tt, State c' (Some (yaml_dump c')) (calls s))
  | None => (Ok tt, s)
  end.
Proof.
  unfold _clear_tenant_repos, gets, modify, _save_config, mbind, M_bind, mret, M_ret.
  cbv zeta. now destruct (_ !! tenant_id).
Qed.

(** C4, as amended.  When the identity of the tenant can be derived (the
    endpoint is empty or [urlparse] accepts it),
    [delete_all_tenant_credentials] issues one erase for
    each name of the tenant's list, in the order of the list: for the path
    [tenant_id/name] when the name is not empty, and for the path [tenant_id]
    when it is.  Then the tenant's list is gone, whatever the erases did, and
    the lists of the other tenants are the same.  When no name of the list is
    empty, the identity without a repository is not erased. *)
Theorem delete_all_tenant_credentials_spec (s : state) (tenant_id host path : string) :
  raises_only_Exception process ->
  _get_git_credential_info (_config s) tenant_id None = Ok (host, path) ->
  let repos := get_tenant_repos (_config s) tenant_id in
  let erases :=
    map (fun r => reject_call host (identity_path tenant_id (Some r)) tenant_id) repos in
  let s' := snd (delete_all_tenant_credentials tenant_id s) in
  fst (delete_all_tenant_credentials tenant_id s) = Ok tt
  /\ calls s' = calls s ++ erases
  /\ get_tenant_repos (_config s') tenant_id = []
  /\ (forall other, other <> tenant_id ->
        get_tenant_repos (_config s') other = get_tenant_repos (_config s) other)
  /\ (Forall (fun r => r <> EmptyString) repos ->
      ~ In (reject_call host tenant_id tenant_id) erases).
Proof.
  intros Hp Hinfo repos erases s'. subst s'.
  unfold delete_all_tenant_credentials, gets, mbind, M_bind. fold repos.
  rewrite (erase_each_repo _ _ _ _ _ Hp Hinfo). fold erases.
  rewrite _clear_tenant_repos_unfold. cbv zeta. cbn [_config config_file calls].
  assert (Hlast : Forall (fun r => r <> EmptyString) repos ->
                  ~ In (reject_call host tenant_id tenant_id) erases).
  { intros Hall Hin. apply in_map_iff in Hin as (r & Heq & Hr).
    apply reject_call_inj_path, identity_path_bare in Heq.
    rewrite Forall_forall in Hall. apply (Hall r); [| exact Heq].
    now apply list_elem_of_In. }
  unfold get_tenant_repos.
  destruct (default ∅ (cfg_tenant_repos (_config s)) !! tenant_id) as [l |] eqn:E;
    cbn [fst snd _config calls set_tenant_repos_key cfg_tenant_repos default from_option id].
  - repeat split; [now rewrite lookup_delete_eq | | exact Hlast].
    intros other Hne. now rewrite lookup_delete_ne.
  - repeat split; [now rewrite E | exact Hlast].
Qed.

End SettingsStoreFacts.

(** ** The model on concrete inputs *)

Example netloc_plain :
  urllib.urlparse_netloc (fun _ => true) "https://lfs.example.com/api" = Ok "lfs.example.com".
Proof. reflexivity. Qed.

Example netloc_userinfo_port :
  urllib.urlparse_netloc (fun _ => true) "https://user:pw@lfs.example.com:8443/api?x#y"
  = Ok "user:pw@lfs.example.com:8443".
Proof. reflexivity. Qed.

Example netloc_no_scheme :
  urllib.urlparse_netloc (fun _ => true) "lfs.example.com/api" = Ok EmptyString.
Proof. reflexivity. Qed.

Example netloc_leading_space :
  urllib.urlparse_netloc (fun _ => true) "  https://a.b/c" = Ok "a.b".
Proof. reflexivity. Qed.

Example netloc_digit_scheme :
  urllib.urlparse_netloc (fun _ => true) "1https://a/b" = Ok EmptyString.
Proof. reflexivity. Qed.

Example netloc_query :
  urllib.urlparse_netloc (fun _ => true) "https://a?b" = Ok "a".
Proof. reflexivity. Qed.

Example netloc_unbalanced :
  urllib.urlparse_netloc (fun _ => true) "https://[::1/api" = Raise ValueError.
Proof. reflexivity. Qed.

Example strip_true : Py.strip ("  true" +:+ Py.LF) = "true".
Proof. reflexivity. Qed.

Example fill_gives_password :
  fst (get_github_token (W := filling_git) "t1" None (fresh_state example_settings))
  = Ok (Some "s3cret=").
Proof. reflexivity. Qed.

Example fill_record :
  calls (snd (get_github_token (W := filling_git) "t1" (Some "r1")
                               (fresh_state example_settings)))
  = [Invocation ["git"; "credential"; "fill"]
       (Some ("protocol=https" +:+ Py.LF +:+ "host=lfs.example.com" +:+ Py.LF
              +:+ "path=t1/r1" +:+ Py.LF +:+ "username=t1" +:+ Py.LF +:+ Py.LF)) 5].
Proof. reflexivity. Qed.

Example scoped_store_does_not_write :
  calls (snd (set_github_token (W := scoped_git) "t1" "tok" None
                               (fresh_state example_settings)))
  = [config_get_call "lfs.example.com"; approve_call "lfs.example.com" "t1" "t1" "tok"].
Proof. reflexivity. Qed.


(** ** The theorems at concrete inputs *)

Lemma timeouts_are_Exceptions : raises_only_Exception (@process slow_git).
Proof. intros history call e [= <-]. reflexivity. Defined.

Lemma quiet_git_raises_nothing : raises_only_Exception (@process quiet_git).
Proof. intros history call e H. discriminate H. Defined.

(** The example of the specification, with a repository, and the fallback. *)
Lemma identity_derivation_witness :
  _get_git_credential_info (W := quiet_git) example_settings "t1" (Some "r1")
  = Ok ("lfs.example.com", "t1/r1")
  /\ _get_git_credential_info (W := quiet_git) empty_settings "t1" None
     = Ok ("candy-lfs.local", "t1").
Proof.
  split.
  - apply (proj1 (proj2 (proj2
             (identity_derivation (W := quiet_git) example_settings "t1" (Some "r1"))))
             "https" "lfs.example.com" "/api"); reflexivity.
  - apply (proj1 (identity_derivation (W := quiet_git) empty_settings "t1" None)).
    reflexivity.
Defined.

(** The port of the endpoint is kept in the host, an empty repository name
    gives the path of the tenant alone, and an endpoint [urlparse] refuses has
    no host. *)
Lemma identity_derivation_counterexample :
  _get_git_credential_info (W := quiet_git) port_settings "t1" None
  = Ok ("lfs.example.com:8443", "t1")
  /\ _get_git_credential_info (W := quiet_git) example_settings "t1" (Some EmptyString)
     = Ok ("lfs.example.com", "t1")
  /\ _get_git_credential_info (W := quiet_git) malformed_settings "t1" None
     = Raise ValueError.
Proof. repeat split; reflexivity. Qed.

(** An endpoint set to the empty string, under an environment that names one. *)
Lemma empty_endpoint_is_unconfigured_witness :
  cfg_lfs_endpoint blank_endpoint_settings = Some EmptyString
  /\ DEFAULT_LFS_ENDPOINT (W := env_world) = "https://env.example.com"
  /\ _get_git_credential_info (W := env_world) blank_endpoint_settings "t1" (Some "r1")
     = Ok ("candy-lfs.local", "t1/r1").
Proof.
  split; [reflexivity |]. split; [reflexivity |].
  apply (proj1 (empty_endpoint_is_unconfigured (W := env_world)
                  blank_endpoint_settings "t1" (Some "r1") eq_refl)).
Defined.

(** A helper that runs out of time. *)
Lemma helper_failures_swallowed_witness :
  raises_only_Exception (@process slow_git)
  /\ _get_git_credential_info (W := slow_git) example_settings "t1" None
     = Ok ("lfs.example.com", "t1")
  /\ fst (get_github_token (W := slow_git) "t1" None (fresh_state example_settings))
     = Ok None
  /\ fst (set_github_token (W := slow_git) "t1" "tok" None (fresh_state example_settings))
     = Ok tt
  /\ fst (delete_github_token (W := slow_git) "t1" None (fresh_state example_settings))
     = Ok tt.
Proof.
  pose proof (proj1 (helper_failures_swallowed (W := slow_git)
                       (fresh_state example_settings) "t1" "tok" None
                       timeouts_are_Exceptions)
                "lfs.example.com" "t1" eq_refl)
    as (_ & Hnone & Hset & Hdel & _).
  split; [exact timeouts_are_Exceptions |]. split; [reflexivity |].
  split; [apply Hnone; reflexivity |]. split; [exact Hset | exact Hdel].
Defined.

(** A store on a host whose key is not set: read, write, approve. *)
Lemma path_scoping_check_then_set_witness :
  raises_only_Exception (@process quiet_git)
  /\ calls (snd (set_github_token (W := quiet_git) "t1" "tok" None
                                  (fresh_state example_settings)))
     = [config_get_call "lfs.example.com"; config_set_call "lfs.example.com";
        approve_call "lfs.example.com" "t1" "t1" "tok"].
Proof.
  split; [exact quiet_git_raises_nothing |].
  rewrite (proj2 (path_scoping_check_then_set (W := quiet_git) "lfs.example.com"
                    (fresh_state example_settings))
             "t1" "tok" None "t1" quiet_git_raises_nothing eq_refl).
  reflexivity.
Defined.

(** The read runs out of time: it did not give [true], and nothing is written. *)
Lemma path_scoping_check_then_set_counterexample :
  process (World := slow_git) [] (config_get_call "lfs.example.com") = Fails TimeoutExpired
  /\ calls (snd (_ensure_use_http_path (W := slow_git) "lfs.example.com"
                                       (fresh_state example_settings)))
     = [config_get_call "lfs.example.com"].
Proof. split; reflexivity. Qed.

(** Two repositories, and a helper that runs out of time at every erase. *)
Lemma delete_all_tenant_credentials_spec_witness :
  raises_only_Exception (@process slow_git)
  /\ fst (delete_all_tenant_credentials (W := slow_git) "t1"
            (fresh_state (repos_settings ["r1"; "r2"]))) = Ok tt
  /\ calls (snd (delete_all_tenant_credentials (W := slow_git) "t1"
                   (fresh_state (repos_settings ["r1"; "r2"]))))
     = [reject_call "candy-lfs.local" "t1/r1" "t1"; reject_call "candy-lfs.local" "t1/r2" "t1"]
  /\ get_tenant_repos
       (_config (snd (delete_all_tenant_credentials (W := slow_git) "t1"
                        (fresh_state (repos_settings ["r1"; "r2"]))))) "t1" = [].
Proof.
  pose proof (delete_all_tenant_credentials_spec (W := slow_git)
                (fresh_state (repos_settings ["r1"; "r2"])) "t1" "candy-lfs.local" "t1"
                timeouts_are_Exceptions eq_refl) as (Hok & Hcalls & Hgone & _).
  split; [exact timeouts_are_Exceptions |]. split; [exact Hok |].
  split; [exact Hcalls | exact Hgone].
Defined.

(** A list that holds the empty name: the erase issued is the one of the
    identity without a repository.  An endpoint [urlparse] refuses: the
    method raises and the list stays. *)
Lemma delete_all_tenant_credentials_counterexample :
  get_tenant_repos (repos_settings [EmptyString]) "t1" = [EmptyString]
  /\ calls (snd (delete_all_tenant_credentials (W := quiet_git) "t1"
                   (fresh_state (repos_settings [EmptyString]))))
     = [reject_call "candy-lfs.local" "t1" "t1"]
  /\ calls (snd (delete_github_token (W := quiet_git) "t1" None
                   (fresh_state (repos_settings [EmptyString]))))
     = [reject_call "candy-lfs.local" "t1" "t1"]
  /\ fst (delete_all_tenant_credentials (W := quiet_git) "t1"
            (fresh_state malformed_repos_settings)) = Raise ValueError
  /\ get_tenant_repos
       (_config (snd (delete_all_tenant_credentials (W := quiet_git) "t1"
                        (fresh_state malformed_repos_settings)))) "t1" = ["r1"].
Proof. repeat split; reflexivity. Qed.

(** A tenant in the middle of the list, renamed twice. *)
Lemma add_tenant_updates_or_appends_witness :
  get_tenant_list
    (_config (snd (add_tenant (W := quiet_git) "t1" "new"
                     (fresh_state (tenants_settings three_tenants)))))
  = [Tenant "t0" "zero"; Tenant "t1" "new"; Tenant "t2" "two"]
  /\ get_tenant_list
       (_config (snd (add_tenant (W := quiet_git) "t9" "nine"
                        (fresh_state (tenants_settings three_tenants)))))
     = three_tenants ++ [Tenant "t9" "nine"]
  /\ entries_of "t1"
       (get_tenant_list
          (_config (snd (add_tenant (W := quiet_git) "t1" "newer"
                           (snd (add_tenant (W := quiet_git) "t1" "new"
                                   (fresh_state (tenants_settings three_tenants))))))))
     = [Tenant "t1" "newer"].
Proof.
  split; [| split].
  - apply (proj1 (proj2 (add_tenant_updates_or_appends (W := quiet_git)
                           (fresh_state (tenants_settings three_tenants)) "t1" "new"))
             1%nat (Tenant "t1" "old") eq_refl eq_refl).
    intros [|[|j]] e' Hj He'; [| lia | lia].
    injection He' as <-. discriminate.
  - apply (proj1 (proj2 (proj2 (add_tenant_updates_or_appends (W := quiet_git)
                                   (fresh_state (tenants_settings three_tenants))
                                   "t9" "nine")))).
    reflexivity.
  - apply (proj2 (proj2 (proj2 (add_tenant_updates_or_appends (W := quiet_git)
                                   (fresh_state (tenants_settings three_tenants))
                                   "t1" "new"))) "newer").
    cbn. lia.
Defined.

(** A tenant of the list and one that never was in it, with a helper that
    runs out of time. *)
Lemma remove_tenant_spec_witness :
  get_tenant_list
    (_config (snd (remove_tenant (W := slow_git) "t1"
                     (fresh_state (tenants_settings three_tenants)))))
  = [Tenant "t0" "zero"; Tenant "t2" "two"]
  /\ get_tenant_list
       (_config (snd (remove_tenant (W := slow_git) "t9"
                        (fresh_state (tenants_settings three_tenants)))))
     = three_tenants
  /\ fst (remove_tenant (W := slow_git) "t9" (fresh_state (tenants_settings three_tenants)))
     = Ok tt
  /\ calls (snd (remove_tenant (W := slow_git) "t9"
                   (fresh_state (tenants_settings three_tenants))))
     = [reject_call "candy-lfs.local" "t9" "t9"].
Proof.
  split; [| split].
  - exact (proj1 (remove_tenant_spec (W := slow_git)
                    (fresh_state (tenants_settings three_tenants)) "t1")).
  - apply (proj1 (proj2 (proj2 (remove_tenant_spec (W := slow_git)
                                   (fresh_state (tenants_settings three_tenants)) "t9")))).
    reflexivity.
  - pose proof (proj2 (proj2 (proj2 (proj2 (proj2
                  (remove_tenant_spec (W := slow_git)
                     (fresh_state (tenants_settings three_tenants)) "t9")))))
                  "candy-lfs.local" "t9" timeouts_are_Exceptions eq_refl)
      as (Hok & _ & Hcalls).
    split; [exact Hok | exact Hcalls].
Defined.

(** A tenant nobody registered a list for. *)
Lemma set_then_get_tenant_repos_witness :
  get_tenant_repos
    (_config (snd (set_tenant_repos (W := quiet_git) "t1" ["r1"; "r2"]
                     (fresh_state empty_settings)))) "t1" = ["r1"; "r2"]
  /\ get_tenant_repos
       (_config (snd (set_tenant_repos (W := quiet_git) "t1" ["r1"; "r2"]
                        (fresh_state empty_settings)))) "unknown" = [].
Proof.
  split.
  - exact (proj1 (proj2 (set_then_get_tenant_repos (W := quiet_git)
                           (fresh_state empty_settings) "t1" ["r1"; "r2"]))).
  - apply (proj2 (proj2 (proj2 (proj2 (set_then_get_tenant_repos (W := quiet_git)
                                          (fresh_state empty_settings) "t1" ["r1"; "r2"]))))).
    reflexivity.
Defined.


(** An endpoint [urlparse] refuses: the tenant was never in the list, and yet
    [remove_tenant] raises, after saving, and erases nothing. *)
Lemma remove_tenant_counterexample :
  entries_of "t1" (get_tenant_list malformed_settings) = []
  /\ fst (remove_tenant (W := quiet_git) "t1" (fresh_state malformed_settings))
     = Raise ValueError
  /\ calls (snd (remove_tenant (W := quiet_git) "t1" (fresh_state malformed_settings)))
     = [].
Proof. repeat split; reflexivity. Qed.


(** Outside the data model, on a list with two entries for one tenant, the
    first entry is the one renamed and the second stays. *)
Example add_tenant_on_twin_entries :
  get_tenant_list
    (_config (snd (add_tenant (W := quiet_git) "t1" "y"
                     (snd (add_tenant (W := quiet_git) "t1" "x"
                             (fresh_state (tenants_settings twin_tenants)))))))
  = [Tenant "t1" "y"; Tenant "t1" "b"].
Proof. reflexivity. Qed.

(** ** More on the settings store *)

Lemma entries_of_nil_not_in (tenant_id : string) (l : list tenant) :
  entries_of tenant_id l = [] -> ~ In tenant_id (map t_tenant_id l).
Proof.
  intros Hnil Hin. apply in_map_iff in Hin as (e & He & Hin).
  apply list_elem_of_In, list_elem_of_lookup in Hin as [j Hj].
  exact (entries_of_nil_lookup _ _ _ _ Hnil Hj He).
Qed.

Lemma others_app (tenant_id : string) (l1 l2 : list tenant) :
  entries_of_others tenant_id (l1 ++ l2)
  = entries_of_others tenant_id l1 ++ entries_of_others tenant_id l2.
Proof. apply List.filter_app. Qed.

Lemma others_cons_same (tenant_id : string) (e : tenant) (l : list tenant) :
  t_tenant_id e = tenant_id ->
  entries_of_others tenant_id (e :: l) = entries_of_others tenant_id l.
Proof.
  intros He. unfold entries_of_others. cbn [List.filter].
  now rewrite He, String.eqb_refl.
Qed.

Lemma others_idempotent (tenant_id : string) (l : list tenant) :
  entries_of_others tenant_id (entries_of_others tenant_id l)
  = entries_of_others tenant_id l.
Proof.
  apply remove_keeps_others. apply remove_leaves_none.
Qed.

(** The list [add_tenant] leaves, from the list it found. *)
Lemma added_list_cases (tenant_id name : string) (l : list tenant) :
  let l' := match rename_first tenant_id name l with
            | Some renamed => renamed
            | None => l ++ [Tenant tenant_id name]
            end in
  (entries_of tenant_id l = [] /\ l' = l ++ [Tenant tenant_id name])
  \/ (exists pre e post,
        l = pre ++ e :: post /\ t_tenant_id e = tenant_id
        /\ entries_of tenant_id pre = []
        /\ l' = pre ++ Tenant tenant_id name :: post).
Proof.
  cbv zeta.
  destruct (rename_first_cases tenant_id name l)
    as [[-> Hnil] | (pre & e & post & Hl & Hpre & He & ->)]; [now left |].
  right. now exists pre, e, post.
Qed.

Lemma unique_ids_filter (p : tenant -> bool) (l : list tenant) :
  unique_ids l -> unique_ids (List.filter p l).
Proof.
  unfold unique_ids. induction l as [|a l IH]; [trivial |].
  cbn [map List.filter]. intros H. apply NoDup_cons in H as [Ha Hl].
  destruct (p a); [| now apply IH].
  cbn [map]. apply NoDup_cons. split; [| now apply IH].
  intros Hin. apply Ha. apply list_elem_of_In in Hin. apply list_elem_of_In.
  apply in_map_iff in Hin as (e & He & Hin). apply in_map_iff.
  exists e. split; [exact He |]. now apply List.filter_In in Hin.
Qed.

Section StoreMore.
Context {W : World}.

(** The three operations on credentials leave the settings and the file as
    they are, whatever they return. *)
Lemma delete_github_token_settings (tenant_id : string) (repo_name : option string)
    (s : state) :
  same_settings s (snd (delete_github_token tenant_id repo_name s)).
Proof.
  rewrite delete_github_token_unfold.
  destruct (_get_git_credential_info _ _ _) as [[host path] | e]; [| now split].
  now rewrite _git_credential_erase_state.
Qed.

Lemma for_each_erase_settings (tenant_id : string) (repos : list string) (s : state) :
  same_settings s
    (snd (for_each repos
            (fun repo_name => delete_github_token tenant_id (Some repo_name)) s)).
Proof.
  revert s. induction repos as [|r repos IH]; intros s; [now split |].
  cbn [for_each]. unfold mbind, M_bind.
  pose proof (delete_github_token_settings tenant_id (Some r) s) as [Hc Hf].
  destruct (delete_github_token tenant_id (Some r) s) as [[[] | e] s1];
    cbn [snd] in Hc, Hf; [| now split].
  destruct (IH s1) as [Hc' Hf']. split; congruence.
Qed.

(** X1.  A new [Config] without a file has the default API endpoint, no
    current tenant, no tenant and no repository, creates no file and runs no
    process.  With a file that holds the null document or the empty mapping,
    the settings are empty: the API endpoint then reads as the empty string,
    not as the default, while the LFS endpoint reads as its default. *)
Theorem load_defaults (log : list invocation) :
  (let r := __init__ None log in
   fst r = Ok tt
   /\ config_file (snd r) = None /\ calls (snd r) = log
   /\ api_endpoint (_config (snd r)) = DEFAULT_API_ENDPOINT
   /\ lfs_endpoint (_config (snd r)) = DEFAULT_LFS_ENDPOINT
   /\ current_tenant (_config (snd r)) = None
   /\ get_tenant_list (_config (snd r)) = []
   /\ forall t, get_tenant_repos (_config (snd r)) t = [])
  /\ (forall text,
        yaml_safe_load text = Ok None \/ yaml_safe_load text = Ok (Some empty_settings) ->
        let r := __init__ (Some text) log in
        fst r = Ok tt
        /\ _config (snd r) = empty_settings
        /\ config_file (snd r) = Some text /\ calls (snd r) = log
        /\ api_endpoint (_config (snd r)) = EmptyString
        /\ lfs_endpoint (_config (snd r)) = DEFAULT_LFS_ENDPOINT).
Proof.
  split; [now repeat split |].
  intros text H. unfold __init__, _load_config. cbn [config_file].
  destruct H as [-> | ->]; now repeat split.
Qed.

(** X2.  A file PyYAML finds a fault in: the constructor raises that fault,
    and nothing is read, written or run. *)
Theorem load_fault_propagates (text : string) (log : list invocation) (e : exn) :
  yaml_safe_load text = Raise e ->
  __init__ (Some text) log = (Raise e, State empty_settings (Some text) log).
Proof.
  intros H. unfold __init__, _load_config. cbn [config_file]. now rewrite H.
Qed.

(** X3.  Each setter stores its value, so that the getter reads it back,
    leaves what the other getters read, saves the document and runs no
    process. *)
Theorem setters_store_and_save (s : state) :
  (forall value,
     let s' := snd (api_endpoint_setter value s) in
     fst (api_endpoint_setter value s) = Ok tt
     /\ api_endpoint (_config s') = value
     /\ lfs_endpoint (_config s') = lfs_endpoint (_config s)
     /\ current_tenant (_config s') = current_tenant (_config s)
     /\ get_tenant_list (_config s') = get_tenant_list (_config s)
     /\ cfg_tenant_repos (_config s') = cfg_tenant_repos (_config s)
     /\ persisted s' /\ calls s' = calls s)
  /\ (forall value,
        let s' := snd (lfs_endpoint_setter value s) in
        fst (lfs_endpoint_setter value s) = Ok tt
        /\ lfs_endpoint (_config s') = value
        /\ api_endpoint (_config s') = api_endpoint (_config s)
        /\ current_tenant (_config s') = current_tenant (_config s)
        /\ get_tenant_list (_config s') = get_tenant_list (_config s)
        /\ cfg_tenant_repos (_config s') = cfg_tenant_repos (_config s)
        /\ persisted s' /\ calls s' = calls s)
  /\ (forall value,
        let s' := snd (current_tenant_setter value s) in
        fst (current_tenant_setter value s) = Ok tt
        /\ current_tenant (_config s') = value
        /\ api_endpoint (_config s') = api_endpoint (_config s)
        /\ lfs_endpoint (_config s') = lfs_endpoint (_config s)
        /\ get_tenant_list (_config s') = get_tenant_list (_config s)
        /\ cfg_tenant_repos (_config s') = cfg_tenant_repos (_config s)
        /\ persisted s' /\ calls s' = calls s).
Proof. repeat split. Qed.

(** X4.  No change stays in memory only.  After a setter, [add_tenant],
    [remove_tenant] or [set_tenant_repos] the file holds the document in
    memory; and the other methods, which may save nothing, keep it so. *)
Theorem mutators_persist (s : state) (tenant_id name token : string)
    (repo_name : option string) (names : list string) :
  persisted (snd (add_tenant tenant_id name s))
  /\ persisted (snd (remove_tenant tenant_id s))
  /\ persisted (snd (set_tenant_repos tenant_id names s))
  /\ (persisted s ->
      persisted (snd (_clear_tenant_repos tenant_id s))
      /\ persisted (snd (delete_all_tenant_credentials tenant_id s))
      /\ persisted (snd (get_github_token tenant_id repo_name s))
      /\ persisted (snd (set_github_token tenant_id token repo_name s))
      /\ persisted (snd (delete_github_token tenant_id repo_name s))).
Proof.
  split; [reflexivity |]. split; [| split].
  - rewrite remove_tenant_unfold. cbv zeta.
    match goal with
    | |- persisted (snd (delete_github_token _ _ ?s0)) =>
        destruct (delete_github_token_settings tenant_id None s0) as [Hc Hf]
    end.
    unfold persisted. now rewrite Hc, Hf.
  - now rewrite set_tenant_repos_unfold.
  - intros Hs. unfold persisted in *.
    assert (Hclear : forall s0, config_file s0 = Some (yaml_dump (_config s0)) ->
              config_file (snd (_clear_tenant_repos tenant_id s0))
              = Some (yaml_dump (_config (snd (_clear_tenant_repos tenant_id s0))))).
    { intros s0 H0. rewrite _clear_tenant_repos_unfold. cbv zeta.
      now destruct (_ !! tenant_id). }
    split; [now apply Hclear |]. split; [| split; [| split]].
    + unfold delete_all_tenant_credentials, gets, mbind, M_bind.
      set (repos := get_tenant_repos (_config s) tenant_id).
      pose proof (for_each_erase_settings tenant_id repos s) as [Hc Hf].
      destruct (for_each repos _ s) as [[[] | e] s1]; cbn [snd] in *.
      * apply Hclear. now rewrite Hc, Hf.
      * now rewrite Hc, Hf.
    + rewrite get_github_token_unfold.
      destruct (_get_git_credential_info _ _ _) as [[host path] | e]; [| exact Hs].
      now rewrite _git_credential_get_state.
    + rewrite set_github_token_unfold.
      destruct (_get_git_credential_info _ _ _) as [[host path] | e]; [| exact Hs].
      destruct (_ensure_use_http_path_state host s) as (extra & Hst & _).
      destruct (_ensure_use_http_path host s) as [[[] | e] s1]; cbn [snd] in Hst; subst s1.
      * now rewrite _git_credential_store_state.
      * exact Hs.
    + destruct (delete_github_token_settings tenant_id repo_name s) as [Hc Hf].
      now rewrite Hc, Hf.
Qed.

Lemma remove_tenant_list (tenant_id : string) (s : state) :
  get_tenant_list (_config (snd (remove_tenant tenant_id s)))
  = entries_of_others tenant_id (get_tenant_list (_config s)).
Proof.
  rewrite remove_tenant_unfold. cbv zeta.
  match goal with
  | |- context [delete_github_token _ _ ?s0] =>
      destruct (delete_github_token_settings tenant_id None s0) as [Hc _]
  end.
  now rewrite Hc.
Qed.

(** X5.  The tenant list keeps its invariant: when no two entries have the
    same tenant id, none have after [add_tenant] and after [remove_tenant],
    and a tenant just added has exactly one entry. *)
Theorem tenant_ids_stay_unique (s : state) (tenant_id name : string) :
  unique_ids (get_tenant_list (_config s)) ->
  unique_ids (get_tenant_list (_config (snd (add_tenant tenant_id name s))))
  /\ unique_ids (get_tenant_list (_config (snd (remove_tenant tenant_id s))))
  /\ entries_of tenant_id (get_tenant_list (_config (snd (add_tenant tenant_id name s))))
     = [Tenant tenant_id name].
Proof.
  intros Hu. rewrite add_tenant_list, remove_tenant_list.
  set (l := get_tenant_list (_config s)) in *.
  split; [| split; [now apply unique_ids_filter |]].
  - destruct (added_list_cases tenant_id name l)
      as [[Hnil ->] | (pre & e & post & Hl & He & Hpre & ->)]; unfold unique_ids in *.
    + rewrite map_app. cbn [map]. apply NoDup_app. split; [exact Hu |].
      split; [| apply NoDup_singleton].
      intros x Hx Hx'. apply list_elem_of_singleton in Hx'. subst x.
      apply list_elem_of_In in Hx. exact (entries_of_nil_not_in _ _ Hnil Hx).
    + rewrite Hl in Hu. rewrite map_app in *. cbn [map t_tenant_id] in *.
      now rewrite He in Hu.
  - destruct (added_list_cases tenant_id name l)
      as [[Hnil ->] | (pre & e & post & Hl & He & Hpre & ->)].
    + rewrite entries_of_app, Hnil, entries_of_cons. cbn [t_tenant_id].
      now rewrite String.eqb_refl.
    + apply entries_of_single; [exact Hpre |].
      unfold unique_ids in Hu. rewrite Hl, map_app in Hu. cbn [map] in Hu.
      apply NoDup_app in Hu as (_ & _ & Hpost). apply NoDup_cons in Hpost as [Hnot _].
      destruct (entries_of tenant_id post) as [|x xs] eqn:E; [reflexivity | exfalso].
      assert (Hx : In x (entries_of tenant_id post)) by (rewrite E; now left).
      apply List.filter_In in Hx as [Hin Hid]. apply String.eqb_eq in Hid.
      apply Hnot. rewrite He, <- Hid. apply list_elem_of_In. now apply in_map.
Qed.

(** X6.  [add_tenant] touches one tenant only: the entries of the other
    tenants stay as they are and in their order, the list loses no entry and
    grows by one at most, and the endpoints, the current tenant, the
    repository lists and the log of processes are the same. *)
Theorem add_tenant_frame (s : state) (tenant_id name : string) :
  let s' := snd (add_tenant tenant_id name s) in
  entries_of_others tenant_id (get_tenant_list (_config s'))
  = entries_of_others tenant_id (get_tenant_list (_config s))
  /\ (length (get_tenant_list (_config s)) <= length (get_tenant_list (_config s'))
      <= S (length (get_tenant_list (_config s))))%nat
  /\ cfg_api_endpoint (_config s') = cfg_api_endpoint (_config s)
  /\ cfg_lfs_endpoint (_config s') = cfg_lfs_endpoint (_config s)
  /\ cfg_current_tenant (_config s') = cfg_current_tenant (_config s)
  /\ cfg_tenant_repos (_config s') = cfg_tenant_repos (_config s)
  /\ calls s' = calls s.
Proof.
  intros s'. subst s'. rewrite !add_tenant_list.
  set (l := get_tenant_list (_config s)).
  destruct (added_list_cases tenant_id name l)
    as [[Hnil ->] | (pre & e & post & Hl & He & Hpre & ->)].
  - rewrite others_app, (others_cons_same tenant_id (Tenant tenant_id name)) by reflexivity.
    rewrite length_app. cbn. rewrite app_nil_r. repeat split; lia.
  - rewrite Hl, !others_app, (others_cons_same _ e) by exact He.
    rewrite (others_cons_same tenant_id (Tenant tenant_id name)) by reflexivity.
    rewrite !length_app. cbn. repeat split; lia.
Qed.

(** X7.  Removing a tenant undoes adding it: after [add_tenant] and then
    [remove_tenant] the list is the one [remove_tenant] alone leaves, which
    is the list from before when the tenant was not in it; removing twice
    is removing once. *)
Theorem remove_undoes_add (s : state) (tenant_id name : string) :
  let added := snd (add_tenant tenant_id name s) in
  get_tenant_list (_config (snd (remove_tenant tenant_id added)))
  = get_tenant_list (_config (snd (remove_tenant tenant_id s)))
  /\ (entries_of tenant_id (get_tenant_list (_config s)) = [] ->
      get_tenant_list (_config (snd (remove_tenant tenant_id added)))
      = get_tenant_list (_config s))
  /\ get_tenant_list
       (_config (snd (remove_tenant tenant_id (snd (remove_tenant tenant_id s)))))
     = get_tenant_list (_config (snd (remove_tenant tenant_id s))).
Proof.
  intros added. subst added. rewrite !remove_tenant_list.
  pose proof (add_tenant_list tenant_id name s) as Hadd.
  set (l := get_tenant_list (_config s)) in *.
  assert (H1 : entries_of_others tenant_id
                 (get_tenant_list (_config (snd (add_tenant tenant_id name s))))
               = entries_of_others tenant_id l).
  { rewrite Hadd.
    destruct (added_list_cases tenant_id name l)
      as [[Hnil ->] | (pre & e & post & Hl & He & Hpre & ->)].
    - rewrite others_app, (others_cons_same tenant_id (Tenant tenant_id name)) by reflexivity.
      cbn. now rewrite app_nil_r.
    - rewrite Hl, !others_app, (others_cons_same _ e) by exact He.
      now rewrite (others_cons_same tenant_id (Tenant tenant_id name)) by reflexivity. }
  rewrite H1. split; [reflexivity |]. split.
  - intros Hnil. now apply remove_keeps_others.
  - apply others_idempotent.
Qed.

(** X8.  [_clear_tenant_repos] for a tenant without a list changes nothing
    and writes nothing; for a tenant with a list it removes the list, leaves
    the lists of the other tenants, and saves.  It runs no process. *)
Theorem clear_tenant_repos_cases (s : state) (tenant_id : string) :
  (default ∅ (cfg_tenant_repos (_config s)) !! tenant_id = None ->
   _clear_tenant_repos tenant_id s = (Ok tt, s))
  /\ (forall names,
        default ∅ (cfg_tenant_repos (_config s)) !! tenant_id = Some names ->
        let s' := snd (_clear_tenant_repos tenant_id s) in
        fst (_clear_tenant_repos tenant_id s) = Ok tt
        /\ get_tenant_repos (_config s') tenant_id = []
        /\ (forall other, other <> tenant_id ->
              get_tenant_repos (_config s') other = get_tenant_repos (_config s) other)
        /\ persisted s'
        /\ calls s' = calls s).
Proof.
  rewrite _clear_tenant_repos_unfold. cbv zeta. split.
  - now intros ->.
  - intros names ->. cbn [fst snd]. unfold get_tenant_repos, persisted.
    cbn [_config config_file calls set_tenant_repos_key cfg_tenant_repos default
         from_option id].
    repeat split; [now rewrite lookup_delete_eq |].
    intros other Hne. now rewrite lookup_delete_ne.
Qed.

(** X9.  The last [set_tenant_repos] wins, and [_clear_tenant_repos] undoes
    it: after two calls for one tenant the list is the second one, and after
    a clear it is empty; a tenant unknown before has then no entry left. *)
Theorem set_tenant_repos_overwrites (s : state) (tenant_id : string)
    (names1 names2 : list string) :
  let s1 := snd (set_tenant_repos tenant_id names1 s) in
  let s2 := snd (set_tenant_repos tenant_id names2 s1) in
  _config s2 = _config (snd (set_tenant_repos tenant_id names2 s))
  /\ get_tenant_repos (_config s2) tenant_id = names2
  /\ get_tenant_repos (_config (snd (_clear_tenant_repos tenant_id s1))) tenant_id = []
  /\ (default ∅ (cfg_tenant_repos (_config s)) !! tenant_id = None ->
      cfg_tenant_repos (_config (snd (_clear_tenant_repos tenant_id s1)))
      = Some (default ∅ (cfg_tenant_repos (_config s)))).
Proof.
  cbv zeta. rewrite !_clear_tenant_repos_unfold, !set_tenant_repos_unfold. cbv zeta.
  cbn [snd _config set_tenant_repos_key cfg_tenant_repos default from_option id
       cfg_api_endpoint cfg_lfs_endpoint cfg_current_tenant cfg_tenants].
  rewrite lookup_insert_eq. unfold get_tenant_repos.
  cbn [snd _config set_tenant_repos_key cfg_tenant_repos default from_option id].
  rewrite insert_insert_eq, lookup_insert_eq, lookup_delete_eq, delete_insert_eq.
  repeat split. intros Hnone. f_equal. now apply delete_id.
Qed.

(** X10.  For a tenant without a list, [delete_all_tenant_credentials] does
    nothing at all: no process, no write, no exception, whatever the endpoint
    and whatever [git] would do. *)
Theorem delete_all_without_list (s : state) (tenant_id : string) :
  default ∅ (cfg_tenant_repos (_config s)) !! tenant_id = None ->
  delete_all_tenant_credentials tenant_id s = (Ok tt, s).
Proof.
  intros Hnone. unfold delete_all_tenant_credentials, gets, mbind, M_bind.
  unfold get_tenant_repos. rewrite Hnone. cbn [default from_option for_each].
  unfold mret, M_ret. rewrite _clear_tenant_repos_unfold. cbv zeta. now rewrite Hnone.
Qed.

End StoreMore.

(** ** More on strings and records *)

Lemma prefix_app (a b : string) : String.prefix a (a +:+ b) = true.
Proof.
  induction a as [|x a IH]; [now destruct b |].
  rewrite app_cons_str. cbn [String.prefix].
  destruct (ascii_dec x x) as [_ | H]; [exact IH | now elim H].
Qed.

Lemma find_first_match {A} (f : A -> bool) (before after : list A) (x : A) :
  Forall (fun y => f y = false) before -> f x = true ->
  List.find f (before ++ x :: after) = Some x.
Proof.
  intros Hb Hx. induction Hb as [|y before Hy _ IH]; cbn [app List.find].
  - now rewrite Hx.
  - now rewrite Hy.
Qed.

Lemma one_line_app (a b : string) :
  one_line (a +:+ b) = one_line a && one_line b.
Proof. unfold one_line. now rewrite contains_app, negb_orb. Qed.

(** Two texts that end with a line feed and a last line are the same only
    when the last lines are, and what stands before them is. *)
Lemma last_line_inj (x y a b : string) :
  one_line a = true -> one_line b = true ->
  x +:+ String Py.lf a = y +:+ String Py.lf b -> x = y /\ a = b.
Proof.
  intros Ha Hb.
  assert (Hno : forall z w, one_line (z +:+ String Py.lf w) = false).
  { intros z w. rewrite one_line_app. unfold one_line at 2. cbn [Py.contains].
    rewrite Ascii.eqb_refl. now destruct (one_line z). }
  revert y. induction x as [|c x IH]; intros [|d y] H;
    rewrite ?app_cons_str, ?app_nil_str in H.
  - split; [reflexivity |]. now injection H.
  - exfalso. injection H as <- H. rewrite H, Hno in Ha. discriminate.
  - exfalso. injection H as -> H. rewrite <- H, Hno in Hb. discriminate.
  - injection H as <- H. destruct (IH _ H) as [-> ->]. now split.
Qed.

(** Two texts that begin with a first line and a line feed are the same only
    when the first lines are, and what follows them is. *)
Lemma first_line_inj (a b x y : string) :
  one_line a = true -> one_line b = true ->
  a +:+ String Py.lf x = b +:+ String Py.lf y -> a = b /\ x = y.
Proof.
  revert b. induction a as [|c a IH]; intros [|d b] Ha Hb H;
    rewrite ?app_cons_str, ?app_nil_str in H.
  - split; [reflexivity |]. now injection H.
  - exfalso. injection H as <- _. unfold one_line in Hb. cbn [Py.contains] in Hb.
    now rewrite Ascii.eqb_refl in Hb.
  - exfalso. injection H as -> _. unfold one_line in Ha. cbn [Py.contains] in Ha.
    now rewrite Ascii.eqb_refl in Ha.
  - injection H as <- H.
    assert (Ha' : one_line a = true).
    { unfold one_line in *. cbn [Py.contains] in Ha.
      destruct (Ascii.eqb c Py.lf); [discriminate | exact Ha]. }
    assert (Hb' : one_line b = true).
    { unfold one_line in *. cbn [Py.contains] in Hb.
      destruct (Ascii.eqb c Py.lf); [discriminate | exact Hb]. }
    destruct (IH b Ha' Hb' H) as [-> ->]. now split.
Qed.

(** The record of a store tells the path and the user name, whatever the
    passwords are. *)
Lemma approve_record_inj (host path1 user1 password1 path2 user2 password2 : string) :
  one_line path1 = true -> one_line user1 = true ->
  one_line path2 = true -> one_line user2 = true ->
  credential_input host path1 user1 (Some password1)
  = credential_input host path2 user2 (Some password2) ->
  path1 = path2 /\ user1 = user2.
Proof.
  intros Hp1 Hu1 Hp2 Hu2 H.
  assert (Hshape : forall path user password,
            credential_input host path user (Some password)
            = ("protocol=https" +:+ Py.LF +:+ "host=" +:+ host +:+ Py.LF +:+ "path=")
              +:+ (path +:+ String Py.lf
                     ("username=" +:+ (user +:+ String Py.lf
                                         ("password=" +:+ password +:+ Py.LF +:+ Py.LF))))).
  { intros path user password. unfold credential_input. rewrite !app_assoc_str.
    reflexivity. }
  rewrite !Hshape in H. apply (inj (String.append _)) in H.
  apply first_line_inj in H as [-> H]; [| assumption | assumption].
  apply (inj (String.append _)) in H.
  apply first_line_inj in H as [-> _]; [| assumption | assumption].
  now split.
Qed.

Lemma credential_input_shape (host path username : string) :
  credential_input host path username None
  = ((("protocol=https" +:+ Py.LF +:+ "host=" +:+ host)
      +:+ String Py.lf ("path=" +:+ path))
     +:+ String Py.lf ("username=" +:+ username))
    +:+ (Py.LF +:+ Py.LF).
Proof.
  unfold credential_input. rewrite !app_assoc_str. reflexivity.
Qed.

Lemma credential_input_shape_password (host path username password : string) :
  credential_input host path username (Some password)
  = (((("protocol=https" +:+ Py.LF +:+ "host=" +:+ host)
       +:+ String Py.lf ("path=" +:+ path))
      +:+ String Py.lf ("username=" +:+ username))
     +:+ String Py.lf ("password=" +:+ password))
    +:+ (Py.LF +:+ Py.LF).
Proof.
  unfold credential_input. rewrite !app_assoc_str. reflexivity.
Qed.

Lemma credential_input_inj (host1 path1 user1 host2 path2 user2 : string) :
  one_line path1 = true -> one_line user1 = true ->
  one_line path2 = true -> one_line user2 = true ->
  (credential_input host1 path1 user1 None = credential_input host2 path2 user2 None ->
   host1 = host2 /\ path1 = path2 /\ user1 = user2)
  /\ (forall password1 password2,
        one_line password1 = true -> one_line password2 = true ->
        credential_input host1 path1 user1 (Some password1)
        = credential_input host2 path2 user2 (Some password2) ->
        host1 = host2 /\ path1 = path2 /\ user1 = user2 /\ password1 = password2).
Proof.
  intros Hp1 Hu1 Hp2 Hu2.
  assert (Hcore : forall x y : string,
            (x +:+ String Py.lf ("path=" +:+ path1)) +:+ String Py.lf ("username=" +:+ user1)
            = (y +:+ String Py.lf ("path=" +:+ path2)) +:+ String Py.lf ("username=" +:+ user2) ->
            x = y /\ path1 = path2 /\ user1 = user2).
  { intros x y H.
    apply last_line_inj in H as [H Hu];
      [| now rewrite one_line_app | now rewrite one_line_app].
    apply last_line_inj in H as [H Hp];
      [| now rewrite one_line_app | now rewrite one_line_app].
    apply (inj (String.append _)) in Hu. apply (inj (String.append _)) in Hp.
    now repeat split. }
  split.
  - intros H. rewrite !credential_input_shape in H.
    apply app_inv_tail_str in H.
    apply Hcore in H as (H & -> & ->).
    repeat apply (inj (String.append _)) in H. now repeat split.
  - intros password1 password2 Hw1 Hw2 H. rewrite !credential_input_shape_password in H.
    apply app_inv_tail_str in H.
    apply last_line_inj in H as [H Hw];
      [| now rewrite one_line_app | now rewrite one_line_app].
    apply (inj (String.append _)) in Hw.
    apply Hcore in H as (H & -> & ->).
    repeat apply (inj (String.append _)) in H. now repeat split.
Qed.

Lemma identity_path_one_line (tenant_id : string) (repo_name : option string) :
  one_line tenant_id = true ->
  one_line (default EmptyString repo_name) = true ->
  one_line (identity_path tenant_id repo_name) = true.
Proof.
  intros Ht Hr. destruct repo_name as [[|c r] |]; cbn [identity_path]; try exact Ht.
  rewrite !one_line_app, Ht. exact Hr.
Qed.

Lemma identity_path_inj (tenant_id : string) (r1 r2 : option string) :
  identity_path tenant_id r1 = identity_path tenant_id r2 ->
  effective_repo r1 = effective_repo r2.
Proof.
  assert (Hlen : forall c r, tenant_id +:+ "/" +:+ String c r <> tenant_id).
  { intros c r H. apply (f_equal String.length) in H.
    rewrite !length_app_str in H. cbn in H. lia. }
  destruct r1 as [[|c1 r1] |], r2 as [[|c2 r2] |]; cbn [identity_path effective_repo];
    intros H; try reflexivity; try (now elim (Hlen _ _ H));
    try (symmetry in H; now elim (Hlen _ _ H)).
  repeat apply (inj (String.append _)) in H. now rewrite H.
Qed.

Lemma contains_remove_same (c : ascii) (s : string) :
  Py.contains c (Py.remove c s) = false.
Proof.
  induction s as [|a s IH]; [reflexivity |]. cbn [Py.remove].
  destruct (Ascii.eqb a c) eqn:E; [exact IH |]. cbn [Py.contains]. now rewrite E, IH.
Qed.

Lemma contains_remove_other (c d : ascii) (s : string) :
  Py.contains c s = false -> Py.contains c (Py.remove d s) = false.
Proof.
  induction s as [|a s IH]; [reflexivity |]. cbn [Py.contains Py.remove].
  intros H. apply orb_false_iff in H as [Ha Hs].
  destruct (Ascii.eqb a d); [now apply IH |]. cbn [Py.contains]. now rewrite Ha, IH.
Qed.

Lemma contains_drop (c : ascii) (n : nat) (s : string) :
  Py.contains c s = false -> Py.contains c (Py.drop n s) = false.
Proof.
  revert s. induction n as [|n IH]; intros [|a s] H; cbn [Py.drop]; try assumption.
  cbn [Py.contains] in H. apply orb_false_iff in H as [_ Hs]. now apply IH.
Qed.

Lemma contains_take (c : ascii) (n : nat) (s : string) :
  Py.contains c s = false -> Py.contains c (Py.take n s) = false.
Proof.
  revert s. induction n as [|n IH]; intros [|a s] H; cbn [Py.take]; try reflexivity.
  cbn [Py.contains] in *. apply orb_false_iff in H as [Ha Hs]. now rewrite Ha, IH.
Qed.

(** Before the first [c], there is no [c]. *)
Lemma take_before_find (c : ascii) (s : string) (i : Z) (n : nat) :
  0 <= i ->
  Py.find_at c s i = -1 \/ Z.of_nat n <= Py.find_at c s i - i ->
  Py.contains c (Py.take n s) = false.
Proof.
  revert i n. induction s as [|a s IH]; intros i n Hi H; [now destruct n |].
  destruct n as [|n]; [reflexivity |]. cbn [Py.take Py.contains Py.find_at] in *.
  destruct (Ascii.eqb a c); [lia |]. cbn [orb].
  apply (IH (i + 1)); [lia |].
  destruct H as [H | H]; [now left | right; lia].
Qed.

Lemma is_unsafe_cases (c : ascii) :
  is_unsafe c = true -> c = "009"%char \/ c = "013"%char \/ c = "010"%char.
Proof.
  unfold is_unsafe. cbn [existsb urllib._UNSAFE_URL_BYTES_TO_REMOVE].
  destruct (Ascii.eqb_spec c "009"); [now left |].
  destruct (Ascii.eqb_spec c "013"); [now right; left |].
  destruct (Ascii.eqb_spec c "010"); [now right; right | discriminate].
Qed.

Lemma is_delimiter_cases (c : ascii) :
  is_delimiter c = true -> c = "/"%char \/ c = "?"%char \/ c = "#"%char.
Proof.
  unfold is_delimiter. cbn [Py.contains].
  destruct (Ascii.eqb_spec "/" c); [now left |].
  destruct (Ascii.eqb_spec "?" c); [now right; left |].
  destruct (Ascii.eqb_spec "#" c); [now right; right | discriminate].
Qed.

Lemma remove_unsafe_clean (c : ascii) (s : string) :
  is_unsafe c = true -> Py.contains c (remove_unsafe s) = false.
Proof.
  intros Hc. unfold remove_unsafe. cbn [fold_left urllib._UNSAFE_URL_BYTES_TO_REMOVE].
  destruct (is_unsafe_cases c Hc) as [-> | [-> | ->]].
  - do 2 apply contains_remove_other. apply contains_remove_same.
  - apply contains_remove_other. apply contains_remove_same.
  - apply contains_remove_same.
Qed.

Lemma after_scheme_clean (c : ascii) (s : string) :
  Py.contains c s = false -> Py.contains c (urllib.after_scheme s) = false.
Proof.
  intros H. unfold urllib.after_scheme.
  destruct (_ && _); [| exact H]. destruct (Py.forallb _ _); [| exact H].
  now apply contains_drop.
Qed.

Lemma splitnetloc_clean (c : ascii) (url : string) (start : Z) :
  Py.contains c url = false ->
  Py.contains c (fst (urllib._splitnetloc url start)) = false.
Proof.
  intros H. unfold urllib._splitnetloc, Py.slice. cbn [fst].
  now apply contains_take, contains_drop.
Qed.

(** The authority [_splitnetloc] cuts holds none of the characters it cuts at. *)
Lemma splitnetloc_no_delimiter (c : ascii) (url : string) :
  is_delimiter c = true ->
  Py.contains c (fst (urllib._splitnetloc url 2)) = false.
Proof.
  intros Hc. unfold urllib._splitnetloc, Py.slice, Py.find_from, Py.slice_from.
  cbn [fst fold_left].
  set (s := Py.drop (Z.to_nat 2) url).
  pose proof (find_at_lower "/" s 2) as H1.
  pose proof (find_at_lower "?" s 2) as H2.
  pose proof (find_at_lower "#" s 2) as H3.
  apply (take_before_find c s 2); [lia |].
  destruct (is_delimiter_cases c Hc) as [-> | [-> | ->]];
    destruct (Z.leb_spec 0 (Py.find_at "/" s 2));
    destruct (Z.leb_spec 0 (Py.find_at "?" s 2));
    destruct (Z.leb_spec 0 (Py.find_at "#" s 2)); lia.
Qed.

(** X12.  The record sent to [git credential] tells the identity: two records
    of a fill or an erase, with paths and user names of one line each, are the
    same only for the same host, the same path and the same user name; and
    two records of a store, with passwords of one line, only for the same
    password as well. *)
Theorem credential_record_injective (host1 path1 user1 host2 path2 user2 : string) :
  one_line path1 = true -> one_line user1 = true ->
  one_line path2 = true -> one_line user2 = true ->
  (credential_input host1 path1 user1 None = credential_input host2 path2 user2 None ->
   host1 = host2 /\ path1 = path2 /\ user1 = user2)
  /\ (forall password1 password2,
        one_line password1 = true -> one_line password2 = true ->
        credential_input host1 path1 user1 (Some password1)
        = credential_input host2 path2 user2 (Some password2) ->
        host1 = host2 /\ path1 = path2 /\ user1 = user2 /\ password1 = password2).
Proof. apply credential_input_inj. Qed.

(** ** More on the credential router *)

Section RouterMore.
Context {W : World}.

Lemma _get_git_credential_info_path (c : settings) (tenant_id : string)
    (repo_name : option string) (host path : string) :
  _get_git_credential_info c tenant_id repo_name = Ok (host, path) ->
  path = identity_path tenant_id repo_name.
Proof.
  rewrite _get_git_credential_info_eq.
  destruct (Py.truthy _); [destruct (urllib.urlparse_netloc _ _) |];
    now intros [= _ <-].
Qed.

Lemma urlparse_netloc_clean (url host : string) (ch : ascii) :
  urllib.urlparse_netloc bracketed_netloc_ok url = Ok host ->
  is_delimiter ch = true \/ is_unsafe ch = true ->
  Py.contains ch host = false.
Proof.
  unfold urllib.urlparse_netloc. cbv zeta.
  fold (remove_unsafe (Py.lstrip urllib._WHATWG_C0_CONTROL_OR_SPACE url)).
  set (u := urllib.after_scheme _).
  destruct (Py.startswith u "//"); [| now intros [= <-]].
  destruct (_ || _); [discriminate |]. destruct (_ && _); [discriminate |].
  intros [= <-] [Hd | Hu].
  - now apply splitnetloc_no_delimiter.
  - apply splitnetloc_clean. unfold u. apply after_scheme_clean.
    now apply remove_unsafe_clean.
Qed.

(** X14.  The host of an identity holds no [/], [?] or [#] and no tab,
    carriage return or line feed, whatever the configured endpoint is: it
    fits on the [host=] line of a record and in the name of a configuration
    key. *)
Theorem host_is_clean (c : settings) (tenant_id : string) (repo_name : option string)
    (host path : string) (ch : ascii) :
  _get_git_credential_info c tenant_id repo_name = Ok (host, path) ->
  is_delimiter ch = true \/ is_unsafe ch = true ->
  Py.contains ch host = false.
Proof.
  rewrite _get_git_credential_info_eq.
  destruct (Py.truthy (lfs_endpoint c)).
  - destruct (urllib.urlparse_netloc _ _) as [netloc | e] eqn:E; [| discriminate].
    intros [= <- _]. now apply (urlparse_netloc_clean _ _ _ E).
  - intros [= <- _] [Hd | Hu].
    + destruct (is_delimiter_cases ch Hd) as [-> | [-> | ->]]; reflexivity.
    + destruct (is_unsafe_cases ch Hu) as [-> | [-> | ->]]; reflexivity.
Qed.

Lemma _get_git_credential_info_host (c : settings) (tenant1 tenant2 : string)
    (repo1 repo2 : option string) (host1 path1 host2 path2 : string) :
  _get_git_credential_info c tenant1 repo1 = Ok (host1, path1) ->
  _get_git_credential_info c tenant2 repo2 = Ok (host2, path2) ->
  host1 = host2.
Proof.
  rewrite !_get_git_credential_info_eq.
  destruct (Py.truthy _); [destruct (urllib.urlparse_netloc _ _) |];
    intros [= <- _] [= <- _]; reflexivity.
Qed.

(** X13.  Tenants sharing a host do not meet: for tenant ids and repository
    names of one line each, two scopes get the same fill, the same erase or
    the same store, whatever the tokens stored, only when the tenant is the
    same and the repository is (an empty repository name counting as
    none). *)
Theorem tenants_are_isolated (c : settings) (tenant1 tenant2 : string)
    (repo1 repo2 : option string) (host1 path1 host2 path2 : string) :
  one_line tenant1 = true -> one_line tenant2 = true ->
  one_line (default EmptyString repo1) = true ->
  one_line (default EmptyString repo2) = true ->
  _get_git_credential_info c tenant1 repo1 = Ok (host1, path1) ->
  _get_git_credential_info c tenant2 repo2 = Ok (host2, path2) ->
  (fill_call host1 path1 tenant1 = fill_call host2 path2 tenant2 ->
   tenant1 = tenant2 /\ effective_repo repo1 = effective_repo repo2)
  /\ (reject_call host1 path1 tenant1 = reject_call host2 path2 tenant2 ->
      tenant1 = tenant2 /\ effective_repo repo1 = effective_repo repo2)
  /\ (forall token1 token2,
        approve_call host1 path1 tenant1 token1 = approve_call host2 path2 tenant2 token2 ->
        tenant1 = tenant2 /\ effective_repo repo1 = effective_repo repo2).
Proof.
  intros Ht1 Ht2 Hr1 Hr2 H1 H2.
  pose proof (_get_git_credential_info_host _ _ _ _ _ _ _ _ _ H1 H2) as Hhost.
  apply _get_git_credential_info_path in H1, H2.
  pose proof (identity_path_one_line _ _ Ht1 Hr1) as Hp1.
  pose proof (identity_path_one_line _ _ Ht2 Hr2) as Hp2.
  rewrite <- H1 in Hp1. rewrite <- H2 in Hp2.
  destruct (credential_input_inj host1 path1 tenant1 host2 path2 tenant2 Hp1 Ht1 Hp2 Ht2)
    as [Hnone _].
  assert (Hend : tenant1 = tenant2 -> path1 = path2 ->
                 tenant1 = tenant2 /\ effective_repo repo1 = effective_repo repo2).
  { intros <- Hp. split; [reflexivity |]. apply (identity_path_inj tenant1). congruence. }
  split; [| split].
  - intros H. apply (f_equal input) in H. cbn [input fill_call] in H.
    apply (inj Some) in H. destruct (Hnone H) as (_ & Hp & Ht). now apply Hend.
  - intros H. apply (f_equal input) in H. cbn [input reject_call] in H.
    apply (inj Some) in H. destruct (Hnone H) as (_ & Hp & Ht). now apply Hend.
  - intros token1 token2 H.
    apply (f_equal input) in H. cbn [input approve_call] in H. apply (inj Some) in H.
    rewrite <- Hhost in H.
    destruct (approve_record_inj _ _ _ _ _ _ _ Hp1 Ht1 Hp2 Ht2 H) as [Hp Ht].
    now apply Hend.
Qed.

(** X11.  A fill that ends with status 0 gives the password of the first
    line of the output that starts with [password=]: all that follows the
    first [=] of that line, further [=] signs included.  The lines before it
    and after it do not count. *)
Theorem fill_returns_first_password (host path username : string) (s : state)
    (p : CompletedProcess) (before after : list string) (secret : string) :
  process (calls s) (fill_call host path username) = Completes p ->
  returncode p = 0 ->
  Py.split Py.lf (stdout p) = before ++ ("password=" +:+ secret) :: after ->
  Forall (fun line => Py.startswith line "password=" = false) before ->
  fst (_git_credential_get host path username s) = Ok (Some secret).
Proof.
  intros Hrun Hrc Hlines Hbefore.
  unfold _git_credential_get, try_except, mbind, M_bind, mret, M_ret.
  rewrite subprocess_run_spec. fold (fill_call host path username).
  rewrite Hrun, Hrc, Hlines. cbn [Z.eqb].
  rewrite (find_first_match _ _ _ _ Hbefore) by apply prefix_app.
  reflexivity.
Qed.

(** X15.  The identity of a scope depends on the LFS endpoint only: after
    [add_tenant], [remove_tenant], [set_tenant_repos] and the setters of the
    API endpoint and of the current tenant, every scope has the identity it
    had; after the setter of the LFS endpoint, it has the identity of the new
    value, whatever the default of the environment is. *)
Theorem identity_is_stable (s : state) (tenant_id : string) (repo_name : option string)
    (other name value : string) (names : list string) (current : option string) :
  let identity := fun s' => _get_git_credential_info (_config s') tenant_id repo_name in
  identity (snd (add_tenant other name s)) = identity s
  /\ identity (snd (remove_tenant other s)) = identity s
  /\ identity (snd (set_tenant_repos other names s)) = identity s
  /\ identity (snd (_clear_tenant_repos other s)) = identity s
  /\ identity (snd (api_endpoint_setter value s)) = identity s
  /\ identity (snd (current_tenant_setter current s)) = identity s
  /\ identity (snd (lfs_endpoint_setter value s))
     = if Py.truthy value
       then match urllib.urlparse_netloc bracketed_netloc_ok value with
            | Ok netloc => Ok (netloc, identity_path tenant_id repo_name)
            | Raise e => Raise e
            end
       else Ok ("candy-lfs.local", identity_path tenant_id repo_name).
Proof.
  cbv zeta. repeat split; try (apply _get_git_credential_info_endpoint; reflexivity).
  - apply _get_git_credential_info_endpoint. rewrite remove_tenant_unfold. cbv zeta.
    match goal with
    | |- context [delete_github_token _ _ ?s0] =>
        destruct (delete_github_token_settings other None s0) as [Hc _]
    end.
    now rewrite Hc.
  - apply _get_git_credential_info_endpoint. now rewrite set_tenant_repos_unfold.
  - apply _get_git_credential_info_endpoint. rewrite _clear_tenant_repos_unfold.
    cbv zeta. now destruct (_ !! other).
  - now rewrite _get_git_credential_info_eq.
Qed.

(** X16.  [delete_all_tenant_credentials] is done after one call: when the
    first call ends (the identity can be derived and [git] raises nothing
    but an [Exception]), a second call runs no process and writes nothing. *)
Theorem delete_all_twice (s : state) (tenant_id host path : string) :
  raises_only_Exception process ->
  _get_git_credential_info (_config s) tenant_id None = Ok (host, path) ->
  let s' := snd (delete_all_tenant_credentials tenant_id s) in
  delete_all_tenant_credentials tenant_id s' = (Ok tt, s').
Proof.
  intros Hp Hinfo s'.
  assert (Hnone : default ∅ (cfg_tenant_repos (_config s')) !! tenant_id = None).
  { subst s'. unfold delete_all_tenant_credentials, gets, mbind, M_bind.
    rewrite (erase_each_repo _ _ _ _ _ Hp Hinfo).
    rewrite _clear_tenant_repos_unfold. cbv zeta. cbn [_config].
    destruct (default ∅ (cfg_tenant_repos (_config s)) !! tenant_id) eqn:E;
      cbn [snd _config set_tenant_repos_key cfg_tenant_repos default from_option id].
    - apply lookup_delete_eq.
    - exact E. }
  unfold delete_all_tenant_credentials, gets, mbind, M_bind.
  unfold get_tenant_repos. rewrite Hnone. cbn [default from_option for_each].
  unfold mret, M_ret. rewrite _clear_tenant_repos_unfold. cbv zeta. now rewrite Hnone.
Qed.

(** X17.  An interrupt is not swallowed: when [subprocess.run] raises what
    does not derive from [Exception], a retrieve, an erase, a store and the
    path-scoping step raise it, after the call is logged, and the settings
    and the file are as before. *)
Theorem interrupt_propagates (host path username password : string) (s : state) (e : exn) :
  is_Exception e = false ->
  (process (calls s) (fill_call host path username) = Fails e ->
   _git_credential_get host path username s
   = (Raise e, State (_config s) (config_file s)
                     (calls s ++ [fill_call host path username])))
  /\ (process (calls s) (reject_call host path username) = Fails e ->
      _git_credential_erase host path username s
      = (Raise e, State (_config s) (config_file s)
                        (calls s ++ [reject_call host path username])))
  /\ (process (calls s) (approve_call host path username password) = Fails e ->
      _git_credential_store host path username password s
      = (Raise e, State (_config s) (config_file s)
                        (calls s ++ [approve_call host path username password])))
  /\ (process (calls s) (config_get_call host) = Fails e ->
      _ensure_use_http_path host s
      = (Raise e, State (_config s) (config_file s) (calls s ++ [config_get_call host]))).
Proof.
  intros He. repeat split; intros Hrun.
  - unfold _git_credential_get, try_except, mbind, M_bind.
    rewrite subprocess_run_spec. fold (fill_call host path username).
    now rewrite Hrun, He.
  - unfold _git_credential_erase, try_except, mbind, M_bind.
    rewrite subprocess_run_spec. fold (reject_call host path username).
    now rewrite Hrun, He.
  - unfold _git_credential_store, try_except, mbind, M_bind.
    rewrite subprocess_run_spec. fold (approve_call host path username password).
    now rewrite Hrun, He.
  - unfold _ensure_use_http_path, try_except, mbind, M_bind.
    rewrite subprocess_run_spec. fold (config_get_call host).
    now rewrite Hrun, He.
Qed.

End RouterMore.

(** ** The store and the router together *)

Section Together.
Context {W : World}.

(** X18.  With an endpoint the identity cannot be derived from, and a list
    that is not empty, [delete_all_tenant_credentials] raises the fault of
    the derivation at the first name: no process is run, nothing is written,
    and the list stays. *)
Theorem delete_all_stops_at_fault (s : state) (tenant_id : string) (e : exn) :
  _get_git_credential_info (_config s) tenant_id None = Raise e ->
  get_tenant_repos (_config s) tenant_id <> [] ->
  delete_all_tenant_credentials tenant_id s = (Raise e, s).
Proof.
  intros Hinfo Hrepos. unfold delete_all_tenant_credentials, gets, mbind, M_bind.
  destruct (get_tenant_repos (_config s) tenant_id) as [|r repos]; [now elim Hrepos |].
  cbn [for_each]. unfold mbind, M_bind. rewrite delete_github_token_unfold.
  assert (Hr : _get_git_credential_info (_config s) tenant_id (Some r) = Raise e).
  { revert Hinfo. rewrite !_get_git_credential_info_eq.
    destruct (Py.truthy _); [| discriminate].
    now destruct (urllib.urlparse_netloc _ _). }
  now rewrite Hr.
Qed.

(** X19.  A restart finds the settings: when the file holds the document in
    memory, as it does after every method that changes it, and PyYAML reads
    back what it wrote, a new [Config] on that file has the same document. *)
Theorem restart_finds_settings (s : state) (log : list invocation) :
  persisted s ->
  yaml_safe_load (yaml_dump (_config s)) = Ok (Some (_config s)) ->
  __init__ (config_file s) log = (Ok tt, State (_config s) (config_file s) log).
Proof.
  unfold persisted. intros Hfile Hyaml.
  unfold __init__, _load_config. cbn [config_file calls]. rewrite Hfile, Hyaml.
  destruct (dict_truthy (_config s)) eqn:Ht; [reflexivity |].
  now rewrite (dict_falsy_empty _ Ht).
Qed.

End Together.

(** ** The further theorems at concrete inputs *)

Lemma load_defaults_witness :
  yaml_safe_load (World := null_yaml_world) "# nothing" = Ok None
  /\ DEFAULT_API_ENDPOINT (W := null_yaml_world) = "https://api.example.com"
  /\ api_endpoint (_config (snd (__init__ (W := null_yaml_world) (Some "# nothing") [])))
     = EmptyString
  /\ lfs_endpoint (W := null_yaml_world)
       (_config (snd (__init__ (W := null_yaml_world) (Some "# nothing") [])))
     = "https://env.example.com".
Proof.
  pose proof (proj2 (load_defaults (W := null_yaml_world) []) "# nothing"
                (or_introl eq_refl)) as (_ & _ & _ & _ & Hapi & Hlfs).
  split; [reflexivity |]. split; [reflexivity |]. split; [exact Hapi | exact Hlfs].
Defined.

Lemma load_fault_propagates_witness :
  yaml_safe_load (World := broken_yaml_world) "a: [" = Raise YAMLError
  /\ __init__ (W := broken_yaml_world) (Some "a: [") []
     = (Raise YAMLError, State empty_settings (Some "a: [") []).
Proof.
  split; [reflexivity |].
  exact (load_fault_propagates (W := broken_yaml_world) "a: [" [] YAMLError eq_refl).
Defined.

Lemma mutators_persist_witness :
  persisted (W := quiet_git) (saved_state (repos_settings ["r1"]))
  /\ persisted (W := quiet_git)
       (snd (delete_all_tenant_credentials (W := quiet_git) "t1"
               (saved_state (repos_settings ["r1"])))).
Proof.
  split; [reflexivity |].
  exact (proj1 (proj2 (proj2 (proj2 (proj2
           (mutators_persist (W := quiet_git) (saved_state (repos_settings ["r1"]))
              "t1" "n" "tok" None []))) eq_refl))).
Defined.

Lemma three_tenants_unique : unique_ids three_tenants.
Proof.
  unfold unique_ids, three_tenants. cbn [map t_tenant_id].
  repeat (apply NoDup_cons; split;
          [intros H; repeat (apply elem_of_cons in H as [H | H]; [discriminate H |]);
           now apply not_elem_of_nil in H |]).
  apply NoDup_nil. exact I.
Defined.

Lemma tenant_ids_stay_unique_witness :
  unique_ids three_tenants
  /\ unique_ids
       (get_tenant_list
          (_config (snd (add_tenant (W := quiet_git) "t1" "new"
                           (fresh_state (tenants_settings three_tenants))))))
  /\ entries_of "t1"
       (get_tenant_list
          (_config (snd (add_tenant (W := quiet_git) "t1" "new"
                           (fresh_state (tenants_settings three_tenants))))))
     = [Tenant "t1" "new"].
Proof.
  pose proof (tenant_ids_stay_unique (W := quiet_git)
                (fresh_state (tenants_settings three_tenants)) "t1" "new"
                three_tenants_unique) as (Hadd & _ & Hone).
  split; [exact three_tenants_unique |]. split; [exact Hadd | exact Hone].
Defined.

Lemma remove_undoes_add_witness :
  entries_of "t9" three_tenants = []
  /\ get_tenant_list
       (_config (snd (remove_tenant (W := quiet_git) "t9"
                        (snd (add_tenant (W := quiet_git) "t9" "nine"
                                (fresh_state (tenants_settings three_tenants)))))))
     = three_tenants.
Proof.
  split; [reflexivity |].
  exact (proj1 (proj2 (remove_undoes_add (W := quiet_git)
                         (fresh_state (tenants_settings three_tenants)) "t9" "nine"))
           eq_refl).
Defined.

Lemma clear_tenant_repos_cases_witness :
  _clear_tenant_repos (W := quiet_git) "t2" (fresh_state (repos_settings ["r1"]))
  = (Ok tt, fresh_state (repos_settings ["r1"]))
  /\ get_tenant_repos
       (_config (snd (_clear_tenant_repos (W := quiet_git) "t1"
                        (fresh_state (repos_settings ["r1"]))))) "t1" = [].
Proof.
  split.
  - exact (proj1 (clear_tenant_repos_cases (W := quiet_git)
                    (fresh_state (repos_settings ["r1"])) "t2") eq_refl).
  - exact (proj1 (proj2 (proj2 (clear_tenant_repos_cases (W := quiet_git)
                                   (fresh_state (repos_settings ["r1"])) "t1")
                           ["r1"] eq_refl))).
Defined.

Lemma set_tenant_repos_overwrites_witness :
  cfg_tenant_repos
    (_config (snd (_clear_tenant_repos (W := quiet_git) "t1"
                     (snd (set_tenant_repos (W := quiet_git) "t1" ["r1"]
                             (fresh_state empty_settings))))))
  = Some ∅.
Proof.
  exact (proj2 (proj2 (proj2 (set_tenant_repos_overwrites (W := quiet_git)
                                (fresh_state empty_settings) "t1" ["r1"] ["r2"])))
           eq_refl).
Defined.

Lemma delete_all_without_list_witness :
  delete_all_tenant_credentials (W := no_git) "t1" (fresh_state malformed_settings)
  = (Ok tt, fresh_state malformed_settings).
Proof.
  exact (delete_all_without_list (W := no_git) (fresh_state malformed_settings) "t1"
           eq_refl).
Defined.

Lemma fill_returns_first_password_witness :
  fst (_git_credential_get (W := chatty_git) "lfs.example.com" "t1" "t1"
         (fresh_state example_settings))
  = Ok (Some "a=b=c").
Proof.
  apply (fill_returns_first_password (W := chatty_git) "lfs.example.com" "t1" "t1"
           (fresh_state example_settings)
           (Completed 0 ("protocol=https" +:+ Py.LF +:+ "username=t1" +:+ Py.LF
                         +:+ "password=a=b=c" +:+ Py.LF +:+ "password=other" +:+ Py.LF))
           ["protocol=https"; "username=t1"] ["password=other"; EmptyString] "a=b=c");
    try reflexivity.
  repeat constructor.
Defined.

Lemma credential_record_injective_witness :
  credential_input "h" "t1/r1" "t1" None = credential_input "h" "t1/r1" "t1" None
  /\ "h" = "h" /\ "t1/r1" = "t1/r1" /\ "t1" = "t1".
Proof.
  split; [reflexivity |].
  exact (proj1 (credential_record_injective "h" "t1/r1" "t1" "h" "t1/r1" "t1"
                  eq_refl eq_refl eq_refl eq_refl) eq_refl).
Defined.

Lemma tenants_are_isolated_witness :
  fill_call "lfs.example.com" "t1" "t1" = fill_call "lfs.example.com" "t1" "t1"
  /\ "t1" = "t1"
  /\ effective_repo (Some EmptyString) = effective_repo None.
Proof.
  split; [reflexivity |].
  exact (proj1 (tenants_are_isolated (W := quiet_git) example_settings "t1" "t1"
                  (Some EmptyString) None "lfs.example.com" "t1" "lfs.example.com" "t1"
                  eq_refl eq_refl eq_refl eq_refl eq_refl eq_refl) eq_refl).
Defined.

Lemma host_is_clean_witness :
  _get_git_credential_info (W := quiet_git) port_settings "t1" None
  = Ok ("lfs.example.com:8443", "t1")
  /\ Py.contains "/" "lfs.example.com:8443" = false.
Proof.
  split; [reflexivity |].
  exact (host_is_clean (W := quiet_git) port_settings "t1" None
           "lfs.example.com:8443" "t1" "/" eq_refl (or_introl eq_refl)).
Defined.

Lemma delete_all_twice_witness :
  raises_only_Exception (@process slow_git)
  /\ delete_all_tenant_credentials (W := slow_git) "t1"
       (snd (delete_all_tenant_credentials (W := slow_git) "t1"
               (fresh_state (repos_settings ["r1"; "r2"]))))
     = (Ok tt,
        snd (delete_all_tenant_credentials (W := slow_git) "t1"
               (fresh_state (repos_settings ["r1"; "r2"])))).
Proof.
  split; [exact timeouts_are_Exceptions |].
  exact (delete_all_twice (W := slow_git) (fresh_state (repos_settings ["r1"; "r2"]))
           "t1" "candy-lfs.local" "t1" timeouts_are_Exceptions eq_refl).
Defined.

Lemma interrupt_propagates_witness :
  is_Exception KeyboardInterrupt = false
  /\ fst (_git_credential_get (W := interrupted_git) "h" "t1" "t1"
            (fresh_state empty_settings))
     = Raise KeyboardInterrupt.
Proof.
  split; [reflexivity |].
  now rewrite (proj1 (interrupt_propagates (W := interrupted_git) "h" "t1" "t1" "pw"
                        (fresh_state empty_settings) KeyboardInterrupt eq_refl) eq_refl).
Defined.

Lemma delete_all_stops_at_fault_witness :
  get_tenant_repos malformed_repos_settings "t1" = ["r1"]
  /\ delete_all_tenant_credentials (W := quiet_git) "t1"
       (fresh_state malformed_repos_settings)
     = (Raise ValueError, fresh_state malformed_repos_settings).
Proof.
  split; [reflexivity |].
  apply (delete_all_stops_at_fault (W := quiet_git)
           (fresh_state malformed_repos_settings) "t1" ValueError eq_refl).
  discriminate.
Defined.

Lemma restart_finds_settings_witness :
  persisted (W := yaml_world port_settings)
    (snd (lfs_endpoint_setter (W := yaml_world port_settings)
            "https://lfs.example.com:8443/api" (fresh_state empty_settings)))
  /\ _config (snd (__init__ (W := yaml_world port_settings)
                     (config_file
                        (snd (lfs_endpoint_setter (W := yaml_world port_settings)
                                "https://lfs.example.com:8443/api"
                                (fresh_state empty_settings))))
                     []))
     = port_settings.
Proof.
  split; [reflexivity |].
  now rewrite (restart_finds_settings (W := yaml_world port_settings)
                 (snd (lfs_endpoint_setter (W := yaml_world port_settings)
                         "https://lfs.example.com:8443/api" (fresh_state empty_settings)))
                 [] eq_refl eq_refl).
Defined.
